(** * Catalog service: shallow embedding and verification

    The development follows the Go sources:
    - [app/catalog/handler.go]      (list and detail handlers),
    - [app/categories/handler.go]   (category handlers, two variants),
    - [models/*.go]                 (data model and the relational repository),
    - the in-memory fakes of the test files ([MockProductRepo],
      [MockCategoryRepo]).

    Go's [int] is the 64-bit signed integer: values are [Z], the one addition
    that can leave the range is wrapped explicitly.  [float64] values are
    IEEE-754 binary64 numbers ([SpecFloat.spec_float], precision 53,
    [emax] 1024), so comparisons and rounding are the machine's.  Run-time
    panics are results of their own ([go]), and a handler's effect on the
    store is explicit state passing. *)

From Stdlib Require Import ZArith String Ascii List Bool Lia.
From Stdlib Require Import Floats.SpecFloat.
From stdpp Require Import base option list gmap strings.
Import ListNotations.

Local Open Scope string_scope.
Local Open Scope Z_scope.

(** ** Go run-time values *)

Definition MaxInt64 : Z := 2 ^ 63 - 1.
Definition MinInt64 : Z := - 2 ^ 63.

(** Two's-complement wrap-around of a 64-bit signed result. *)
Definition wrap64 (z : Z) : Z := (z + 2 ^ 63) mod 2 ^ 64 - 2 ^ 63.

Definition in_int64 (z : Z) : bool := (MinInt64 <=? z) && (z <=? MaxInt64).

Inductive panic_value : Type :=
| SliceBoundsOutOfRange
| NilPointerDereference.

(** The result of running Go code that may panic. *)
Inductive go (A : Type) : Type :=
| Return (a : A)
| Panic (p : panic_value).
Arguments Return {A} a.
Arguments Panic {A} p.

(** Go's [error] values met in the program: the two sentinels, compared by
    identity with [errors.Is], and errors made by [errors.New]. *)
Inductive error : Type :=
| gorm_ErrRecordNotFound
| ErrProductNotFound
| errors_New (text : string).

Definition error_Error (e : error) : string :=
  match e with
  | gorm_ErrRecordNotFound => "record not found"
  | ErrProductNotFound => "product not found"
  | errors_New text => text
  end.

Definition errors_Is (e target : error) : bool :=
  match e, target with
  | gorm_ErrRecordNotFound, gorm_ErrRecordNotFound => true
  | ErrProductNotFound, ErrProductNotFound => true
  | _, _ => false
  end.

(** ** float64

    A float64 is a [spec_float] in canonical form (the mantissa normalized
    for binary64), which is what the conversions below produce and what
    [SFcompare] orders correctly. *)

Abbreviation float64 := spec_float.

Definition prec64 : Z := 53.
Definition emax64 : Z := 1024.

(** Go's [a >= b] and [a < b] on float64: false as soon as one side is NaN. *)
Definition float64_ge (a b : float64) : bool := SFleb b a.


Definition float64_is_finite (f : float64) : bool :=
  match f with S754_zero _ | S754_finite _ _ _ => true | _ => false end.

(** The float64 nearest to the rational [n / d], ties to even; beyond the
    range it is an infinity.  This is the rounding of [big.Rat.Float64] and
    of [strconv.ParseFloat]. *)
Definition float64_of_rat (n : Z) (d : positive) : float64 :=
  match n with
  | Z0 => S754_zero false
  | Zpos p => SFdiv prec64 emax64 (S754_finite false p 0) (S754_finite false d 0)
  | Zneg p => SFdiv prec64 emax64 (S754_finite true p 0) (S754_finite false d 0)
  end.


(** ** strconv *)

Module strconv.

Definition digit_of (c : ascii) : option Z :=
  let n := Z.of_N (N_of_ascii c) in
  if (48 <=? n) && (n <=? 57) then Some (n - 48) else None.

(** The digit loop: a byte that is no decimal digit is a syntax error. *)
Fixpoint digits (s : string) (n : Z) : option Z :=
  match s with
  | EmptyString => Some n
  | String c rest =>
      match digit_of c with
      | Some d => digits rest (n * 10 + d)
      | None => None
      end
  end.

(** [strconv.Atoi] on a 64-bit platform: an optional sign, then one or
    more decimal digits; [None] stands for a non-nil [err], which is a
    syntax error or a value outside the int64 range. *)
Definition Atoi (s : string) : option Z :=
  match s with
  | EmptyString => None
  | String c rest =>
      let '(neg, body) :=
        if Ascii.eqb c "-" then (true, rest)
        else if Ascii.eqb c "+" then (false, rest)
        else (false, s) in
      match body with
      | EmptyString => None
      | _ =>
          match digits body 0 with
          | None => None
          | Some un =>
              let n := if neg then - un else un in
              if in_int64 n then Some n else None
          end
      end
  end.

(** [strconv.FormatFloat(f, 'g', -1, 64)] for the values that
    [encoding/json] refuses. *)
Definition FormatFloat_special (f : float64) : string :=
  match f with
  | S754_nan => "NaN"
  | S754_infinity false => "+Inf"
  | S754_infinity true => "-Inf"
  | _ => EmptyString
  end.

(** The plain decimal literals of [strconv.ParseFloat]:
    sign, digits, and an optional fraction.  It runs the scenarios of
    the tests; the handlers below take the parser as a parameter and the
    theorems about them hold for every parser. *)
Fixpoint split_dot (s : string) : string * option string :=
  match s with
  | EmptyString => (EmptyString, None)
  | String c rest =>
      if Ascii.eqb c "." then (EmptyString, Some rest)
      else let '(a, b) := split_dot rest in (String c a, b)
  end.

Definition ParseFloat_plain (s : string) : option float64 :=
  match s with
  | EmptyString => None
  | String c rest =>
      let '(neg, body) :=
        if Ascii.eqb c "-" then (true, rest)
        else if Ascii.eqb c "+" then (false, rest)
        else (false, s) in
      let '(ip, fp) := split_dot body in
      let fp := match fp with Some f => f | None => EmptyString end in
      if (String.length ip + String.length fp =? 0)%nat then None else
      match digits (String.append ip fp) 0 with
      | None => None
      | Some m =>
          let f := float64_of_rat m (Z.to_pos (10 ^ Z.of_nat (String.length fp))) in
          Some (if neg then SFopp f else f)
      end
  end.

End strconv.


(** ** github.com/shopspring/decimal *)

Module decimal.

(** [Decimal] is [value * 10 ^ exp]; [value] is a [*big.Int] and is nil in
    the zero value [Decimal{}]. *)
Record Decimal : Type := mk { value : option Z; exp : Z }.

(** [decimal.Decimal{}], the absent price. *)
Definition Zero : Decimal := {| value := None; exp := 0 |}.

Definition New (v e : Z) : Decimal := {| value := Some v; exp := e |}.

Definition Sign (d : Decimal) : Z :=
  match value d with
  | None => 0
  | Some v => Z.sgn v
  end.

Definition IsZero (d : Decimal) : bool := Sign d =? 0.

(** [d.InexactFloat64()] is [d.Rat().Float64()] without the exactness
    flag: the nearest float64. *)
Definition InexactFloat64 (d : Decimal) : float64 :=
  let v := match value d with None => 0 | Some v => v end in
  if 0 <=? exp d
  then float64_of_rat (v * 10 ^ exp d) 1
  else float64_of_rat v (Z.to_pos (10 ^ (- exp d))).

End decimal.

(** ** encoding/json, at the level of JSON values *)

#[local] Set Warnings "-register-all".

Inductive json : Type :=
| JString (s : string)
| JInt (z : Z)
| JFloat (f : float64)
| JArray (items : list json)
| JObject (fields : list (string * json)).

(** The first float that [encoding/json] cannot encode (NaN or an
    infinity), in encoding order. *)
Fixpoint json_unsupported (j : json) : option float64 :=
  match j with
  | JString _ | JInt _ => None
  | JFloat f => if float64_is_finite f then None else Some f
  | JArray items =>
      (fix scan (l : list json) : option float64 :=
         match l with
         | [] => None
         | x :: rest =>
             match json_unsupported x with
             | Some f => Some f
             | None => scan rest
             end
         end) items
  | JObject fields =>
      (fix scan (l : list (string * json)) : option float64 :=
         match l with
         | [] => None
         | (_, x) :: rest =>
             match json_unsupported x with
             | Some f => Some f
             | None => scan rest
             end
         end) fields
  end.

(** [json.NewEncoder(w).Encode(v)]: the error, if any.  Nothing is written
    when it fails. *)
Definition json_Encode (j : json) : option error :=
  match json_unsupported j with
  | Some f =>
      Some (errors_New (String.append "json: unsupported value: "
                                      (strconv.FormatFloat_special f)))
  | None => None
  end.

(** ** net/http *)

Module http.

Definition StatusOK : Z := 200.
Definition StatusCreated : Z := 201.
Definition StatusBadRequest : Z := 400.
Definition StatusNotFound : Z := 404.
Definition StatusInternalServerError : Z := 500.

Inductive body : Type :=
| Text (s : string)
| JSON (j : json).

(** What a handler leaves in the response writer: the status, the
    Content-Type header it set (if it set one) and the body. *)
Record ResponseRecorder : Type :=
  { Code : Z; ContentType : option string; Body : body }.

Definition newline : string := String "010" EmptyString.

(** [http.Error(w, error, code)]: a plain-text reply, the message
    followed by a newline. *)
Definition Error (error : string) (code : Z) : ResponseRecorder :=
  {| Code := code;
     ContentType := Some "text/plain; charset=utf-8";
     Body := Text (String.append error newline) |}.

(** [url.Values] is [map[string][]string]; [Get] is the first value of
    the key, or the empty string. *)
Definition Values_Get (v : gmap string (list string)) (key : string) : string :=
  match v !! key with
  | Some (x :: _) => x
  | _ => EmptyString
  end.

Record Request : Type :=
  { Query : gmap string (list string);
    PathValues : gmap string string;
    RequestBody : string }.

Definition PathValue (r : Request) (name : string) : string :=
  default EmptyString (PathValues r !! name).

End http.

(** ** package models *)

Module models.

Module Category.
Record t : Type := mk { ID : Z; Code : string; Name : string }.
End Category.

(** Modelled from the spec: the struct [models.Variant] is not among the
    sources; it has the fields the detail handler and its test read, a
    name, an SKU and an own price that may be absent. *)
Module Variant.
Record t : Type := mk { Name : string; SKU : string; Price : decimal.Decimal }.
End Variant.

Module Product.
Record t : Type := mk
  { ID : Z;
    Code : string;
    Price : decimal.Decimal;
    CategoryID : Z;
    Category : Category.t;
    Variants : list Variant.t }.
End Product.

Record ProductFilters : Type :=
  { CategoryCode : string; PriceLessThan : option float64 }.

(** *** The relational store behind [*gorm.DB]

    gorm and the database are outside the repository; this is the
    relational reading of the calls that the repository makes.  A table
    of product rows in the store's natural order, each row with its
    category and variants loaded, and the failures the connection is going
    to report: one entry per statement executed, in order, and no failure
    once the list is used up. *)
Module gorm.

Record DB : Type :=
  { products : list Product.t;
    faults : list (option error) }.

(** The query under construction: the conditions of the [Where]
    calls, and the [Offset] and [Limit] clauses. *)
Record Statement : Type :=
  { conds : list (Product.t -> bool);
    offset : Z;
    limit : option Z }.

Definition Model : Statement :=
  {| conds := []; offset := 0; limit := None |}.

Definition Where (c : Product.t -> bool) (q : Statement) : Statement :=
  {| conds := (conds q ++ [c])%list; offset := offset q; limit := limit q |}.

Definition Offset (o : Z) (q : Statement) : Statement :=
  {| conds := conds q; offset := o; limit := limit q |}.

Definition Limit (l : Z) (q : Statement) : Statement :=
  {| conds := conds q; offset := offset q; limit := Some l |}.

(** The rows that satisfy every condition (SQL's [AND]). *)
Definition selected (q : Statement) (rows : list Product.t) : list Product.t :=
  List.filter (fun p => forallb (fun c => c p) (conds q)) rows.

(** [OFFSET] and [LIMIT]: a clause that is not positive (offset) or is
    negative (limit) is not emitted. *)
Definition paginate (q : Statement) (rows : list Product.t) : list Product.t :=
  let skipped := if 0 <? offset q then skipn (Z.to_nat (offset q)) rows else rows in
  match limit q with
  | Some l => if 0 <=? l then firstn (Z.to_nat l) skipped else skipped
  | None => skipped
  end.

(** Running one statement uses up one entry of [faults]. *)
Definition exec {A : Type} (run : list Product.t -> A) (db : DB)
  : (error + A) * DB :=
  match faults db with
  | Some e :: rest => (inl e, {| products := products db; faults := rest |})
  | None :: rest => (inr (run (products db)), {| products := products db; faults := rest |})
  | [] => (inr (run (products db)), db)
  end.

Definition Count (q : Statement) : DB -> (error + Z) * DB :=
  exec (fun rows => Z.of_nat (length (selected q rows))).

Definition Find (q : Statement) : DB -> (error + list Product.t) * DB :=
  exec (fun rows => paginate q (selected q rows)).

(** The row of least primary key among [rows]. *)
Fixpoint least_ID (best : Product.t) (rows : list Product.t) : Product.t :=
  match rows with
  | [] => best
  | p :: rest =>
      least_ID (if Product.ID p <? Product.ID best then p else best) rest
  end.

(** [First]: ordered by primary key, one row; [ErrRecordNotFound] when
    no row is selected. *)
Definition First (q : Statement) (db : DB) : (error + Product.t) * DB :=
  match exec (selected q) db with
  | (inl e, db') => (inl e, db')
  | (inr [], db') => (inl gorm_ErrRecordNotFound, db')
  | (inr (p :: rest), db') => (inr (least_ID p rest), db')
  end.

End gorm.

(** *** models/products_repository.go *)
Module ProductsRepository.
Section Repository.

(** The store's comparison [products.price < ?] of the decimal column
    with the bound float64 parameter. *)
Variable sql_price_lt : decimal.Decimal -> float64 -> bool.

Definition GetAllProducts (db : gorm.DB)
  : (list Product.t * option error) * gorm.DB :=
  match gorm.Find gorm.Model db with
  | (inl err, db') => (([], Some err), db')
  | (inr products, db') => ((products, None), db')
  end.

Definition GetFilteredProducts (offset limit : Z) (filters : ProductFilters)
    (db : gorm.DB) : (list Product.t * Z * option error) * gorm.DB :=
  let query := gorm.Model in
  (* Filter *)
  let query :=
    if negb (String.eqb (CategoryCode filters) EmptyString)
    then gorm.Where
           (fun p => String.eqb (Category.Code (Product.Category p))
                                (CategoryCode filters)) query
    else query in
  let query :=
    match PriceLessThan filters with
    | Some price => gorm.Where (fun p => sql_price_lt (Product.Price p) price) query
    | None => query
    end in
  (* Count total after filtering *)
  match gorm.Count query db with
  | (inl err, db1) => (([], 0, Some err), db1)
  | (inr total, db1) =>
      (* Apply pagination *)
      match gorm.Find (gorm.Limit limit (gorm.Offset offset query)) db1 with
      | (inl err, db2) => (([], 0, Some err), db2)
      | (inr products, db2) => ((products, total, None), db2)
      end
  end.

Definition GetByCode (code : string) (db : gorm.DB)
  : (option Product.t * option error) * gorm.DB :=
  match gorm.First
          (gorm.Where (fun p => String.eqb (Product.Code p) code) gorm.Model) db with
  | (inl err, db') =>
      if errors_Is err gorm_ErrRecordNotFound
      then ((None, Some ErrProductNotFound), db')
      else ((None, Some err), db') (* Other DB error *)
  | (inr product, db') => ((Some product, None), db')
  end.

End Repository.
End ProductsRepository.

End models.

(** Go's slice expression [s[low:high]] on a slice used up to its length:
    it panics unless [0 <= low <= high <= len(s)]. *)
Definition slice {A : Type} (s : list A) (low high : Z) : go (list A) :=
  if (0 <=? low) && (low <=? high) && (high <=? Z.of_nat (length s))
  then Return (firstn (Z.to_nat (high - low)) (skipn (Z.to_nat low) s))
  else Panic SliceBoundsOutOfRange.

(** ** package catalog: app/catalog/handler.go *)

Module catalog.

Module Category.
Record t : Type := mk { Code : string; Name : string }.
Definition to_json (c : t) : json :=
  JObject [("code", JString (Code c)); ("name", JString (Name c))].
End Category.

Module Product.
Record t : Type := mk { Code : string; Price : float64; Category : Category.t }.
Definition to_json (p : t) : json :=
  JObject [("code", JString (Code p)); ("price", JFloat (Price p));
           ("category", Category.to_json (Category p))].
End Product.

Module Variant.
Record t : Type := mk { Name : string; SKU : string; Price : float64 }.
Definition to_json (v : t) : json :=
  JObject [("name", JString (Name v)); ("sku", JString (SKU v));
           ("price", JFloat (Price v))].
End Variant.

Module Response.
Record t : Type := mk { Total : Z; Products : list Product.t }.
Definition to_json (r : t) : json :=
  JObject [("total", JInt (Total r));
           ("products", JArray (List.map Product.to_json (Products r)))].
End Response.

(** The anonymous response struct of [HandleGetProduct]. *)
Module ProductDetail.
Record t : Type := mk
  { Code : string; Price : float64; Category : Category.t;
    Variants : list Variant.t }.
Definition to_json (r : t) : json :=
  JObject [("code", JString (Code r)); ("price", JFloat (Price r));
           ("category", Category.to_json (Category r));
           ("variants", JArray (List.map Variant.to_json (Variants r)))].
End ProductDetail.

(** The interface [ProductProvider], over the state [S] of the
    implementation: a method returns its results, or panics, and the new
    state. *)
Record ProductProvider (S : Type) : Type :=
  { GetAllProducts :
      S -> go (list models.Product.t * option error) * S;
    GetFilteredProducts :
      Z -> Z -> models.ProductFilters ->
      S -> go (list models.Product.t * Z * option error) * S;
    GetByCode :
      string -> S -> go (option models.Product.t * option error) * S }.
Arguments GetAllProducts {S} _ _.
Arguments GetFilteredProducts {S} _ _ _ _ _.
Arguments GetByCode {S} _ _ _.

(** Replies with [v] encoded as JSON under the Content-Type set before,
    or with [http.Error] when the encoder fails. *)
Definition encode_or_error (v : json) : http.ResponseRecorder :=
  match json_Encode v with
  | Some err => http.Error (error_Error err) http.StatusInternalServerError
  | None =>
      {| http.Code := http.StatusOK;
         http.ContentType := Some "application/json";
         http.Body := http.JSON v |}
  end.

Section CatalogHandler.

Context {S : Type}.
(** [h.repo] *)
Variable repo : ProductProvider S.
(** [strconv.ParseFloat(_, 64)]; [None] stands for a non-nil [err]. *)
Variable ParseFloat : string -> option float64.

Definition HandleGet (r : http.Request) (h : S) : go http.ResponseRecorder * S :=
  (* Parse pagination query params *)
  let offset := 0 in
  let limit := 10 in
  let oStr := http.Values_Get (http.Query r) "offset" in
  let offset :=
    if negb (String.eqb oStr EmptyString) then
      match strconv.Atoi oStr with
      | Some o => if 0 <=? o then o else offset
      | None => offset
      end
    else offset in
  let lStr := http.Values_Get (http.Query r) "limit" in
  let limit :=
    if negb (String.eqb lStr EmptyString) then
      match strconv.Atoi lStr with
      | Some l => if l <? 1 then 1 else if 100 <? l then 100 else l
      | None => limit
      end
    else limit in
  (* Parse filters *)
  let categoryCode := http.Values_Get (http.Query r) "category" in
  let priceStr := http.Values_Get (http.Query r) "price_lt" in
  let priceFilter :=
    if negb (String.eqb priceStr EmptyString) then
      match ParseFloat priceStr with
      | Some val => Some val
      | None => None
      end
    else None in
  let filters :=
    {| models.CategoryCode := categoryCode;
       models.PriceLessThan := priceFilter |} in
  match GetFilteredProducts repo offset limit filters h with
  | (Panic p, h') => (Panic p, h')
  | (Return (res, total, Some err), h') =>
      (Return (http.Error (error_Error err) http.StatusInternalServerError), h')
  | (Return (res, total, None), h') =>
      let products :=
        List.map
          (fun p =>
             {| Product.Code := models.Product.Code p;
                Product.Price := decimal.InexactFloat64 (models.Product.Price p);
                Product.Category :=
                  {| Category.Code := models.Category.Code (models.Product.Category p);
                     Category.Name := models.Category.Name (models.Product.Category p) |} |})
          res in
      let response :=
        {| Response.Total := total; Response.Products := products |} in
      (Return (encode_or_error (Response.to_json response)), h')
  end.

Definition HandleGetProduct (r : http.Request) (h : S) : go http.ResponseRecorder * S :=
  let code := http.PathValue r "code" in
  match GetByCode repo code h with
  | (Panic p, h') => (Panic p, h')
  | (Return (_, Some err), h') =>
      (Return (http.Error "Product not found" http.StatusNotFound), h')
  | (Return (None, None), h') => (Panic NilPointerDereference, h')
  | (Return (Some product, None), h') =>
      (* Map response *)
      let variants :=
        List.map
          (fun v =>
             let price := models.Variant.Price v in
             let price :=
               if decimal.IsZero price then models.Product.Price product else price in
             {| Variant.Name := models.Variant.Name v;
                Variant.SKU := models.Variant.SKU v;
                Variant.Price := decimal.InexactFloat64 price |})
          (models.Product.Variants product) in
      let response :=
        {| ProductDetail.Code := models.Product.Code product;
           ProductDetail.Price := decimal.InexactFloat64 (models.Product.Price product);
           ProductDetail.Category :=
             {| Category.Code := models.Category.Code (models.Product.Category product);
                Category.Name := models.Category.Name (models.Product.Category product) |};
           ProductDetail.Variants := variants |} in
      (Return (encode_or_error (ProductDetail.to_json response)), h')
  end.

End CatalogHandler.

(** *** The production provider: [*models.ProductsRepository] *)
Definition ProductsRepository (sql_price_lt : decimal.Decimal -> float64 -> bool)
  : ProductProvider models.gorm.DB :=
  {| GetAllProducts db :=
       let '(r, db') := models.ProductsRepository.GetAllProducts db in (Return r, db');
     GetFilteredProducts offset limit filters db :=
       let '(r, db') :=
         models.ProductsRepository.GetFilteredProducts sql_price_lt offset limit filters db in
       (Return r, db');
     GetByCode code db :=
       let '(r, db') := models.ProductsRepository.GetByCode code db in (Return r, db') |}.

(** *** The in-memory provider of the tests *)
Module MockProductRepo.

Record t : Type := mk
  { SourceProducts : list models.Product.t;
    Err : option error;
    (* Fields to capture call arguments *)
    lastCalledOffset : Z;
    lastCalledLimit : Z;
    lastCalledFilters : models.ProductFilters;
    lastCalledCode : string }.

(** [&MockProductRepo{SourceProducts: ps, Err: err}] *)
Definition new (ps : list models.Product.t) (err : option error) : t :=
  {| SourceProducts := ps; Err := err;
     lastCalledOffset := 0; lastCalledLimit := 0;
     lastCalledFilters := {| models.CategoryCode := EmptyString; models.PriceLessThan := None |};
     lastCalledCode := EmptyString |}.

Definition GetAllProducts (m : t) : go (list models.Product.t * option error) * t :=
  (Return ([], None), m).

(** The body of the filtering loop: does [p] stay in the result? *)
Definition matches (filters : models.ProductFilters) (p : models.Product.t) : bool :=
  let matched := true in
  (* Category filter *)
  let matched :=
    if negb (String.eqb (models.CategoryCode filters) EmptyString)
       && negb (String.eqb (models.Category.Code (models.Product.Category p))
                           (models.CategoryCode filters))
    then false else matched in
  (* Price filter *)
  let matched :=
    match models.PriceLessThan filters with
    | Some price =>
        if float64_ge (decimal.InexactFloat64 (models.Product.Price p)) price
        then false else matched
    | None => matched
    end in
  matched.

Definition GetFilteredProducts (offset limit : Z) (filters : models.ProductFilters)
    (m : t) : go (list models.Product.t * Z * option error) * t :=
  let m :=
    {| SourceProducts := SourceProducts m; Err := Err m;
       lastCalledOffset := offset; lastCalledLimit := limit;
       lastCalledFilters := filters; lastCalledCode := lastCalledCode m |} in
  match Err m with
  | Some err => (Return ([], 0, Some err), m)
  | None =>
      (* Simulate filtering *)
      let filteredProducts := List.filter (matches filters) (SourceProducts m) in
      let total := Z.of_nat (length filteredProducts) in
      (* Simulate pagination *)
      let start := offset in
      let start :=
        if Z.of_nat (length filteredProducts) <? start
        then Z.of_nat (length filteredProducts) else start in
      let end_ := wrap64 (offset + limit) in
      let end_ :=
        if Z.of_nat (length filteredProducts) <? end_
        then Z.of_nat (length filteredProducts) else end_ in
      match slice filteredProducts start end_ with
      | Return page => (Return (page, total, None), m)
      | Panic p => (Panic p, m)
      end
  end.

Definition GetByCode (code : string) (m : t)
  : go (option models.Product.t * option error) * t :=
  let m :=
    {| SourceProducts := SourceProducts m; Err := Err m;
       lastCalledOffset := lastCalledOffset m; lastCalledLimit := lastCalledLimit m;
       lastCalledFilters := lastCalledFilters m; lastCalledCode := code |} in
  match Err m with
  | Some err => (Return (None, Some err), m)
  | None =>
      match List.find (fun p => String.eqb (models.Product.Code p) code)
                      (SourceProducts m) with
      | Some product => (Return (Some product, None), m)
      | None => (Return (None, Some ErrProductNotFound), m)
      end
  end.

Definition provider : ProductProvider t :=
  {| catalog.GetAllProducts := GetAllProducts;
     catalog.GetFilteredProducts := GetFilteredProducts;
     catalog.GetByCode := GetByCode |}.

End MockProductRepo.

(** *** Recording the calls a handler makes

    Any provider can be wrapped so that every call is appended to a log
    kept next to its state, the way the mock keeps its [lastCalled]
    fields. *)
Inductive Call : Type :=
| CallGetAllProducts
| CallGetFilteredProducts (offset limit : Z) (filters : models.ProductFilters)
| CallGetByCode (code : string).

Definition Recorded {S : Type} (repo : ProductProvider S)
  : ProductProvider (S * list Call) :=
  {| GetAllProducts '(s, log) :=
       let '(r, s') := GetAllProducts repo s in
       (r, (s', (log ++ [CallGetAllProducts])%list));
     GetFilteredProducts offset limit filters '(s, log) :=
       let '(r, s') := GetFilteredProducts repo offset limit filters s in
       (r, (s', (log ++ [CallGetFilteredProducts offset limit filters])%list));
     GetByCode code '(s, log) :=
       let '(r, s') := GetByCode repo code s in
       (r, (s', (log ++ [CallGetByCode code])%list)) |}.

End catalog.

(** ** package api

    Modelled from the spec: the package [app/api] is not among the sources.
    Its [ErrorResponse(w, status, message)] replies with the status and the
    JSON object [{error: message}], which is how the spec lists every error
    body and how the tests read it. *)
Module api.

Definition ErrorResponse (status : Z) (message : string) : http.ResponseRecorder :=
  {| http.Code := status;
     http.ContentType := Some "application/json";
     http.Body := http.JSON (JObject [("error", JString message)]) |}.

(** Modelled from the spec: [OKResponse(w, data)] of the same package
    replies 200 with [data] encoded as JSON. *)
Definition OKResponse (data : json) : http.ResponseRecorder :=
  {| http.Code := http.StatusOK;
     http.ContentType := Some "application/json";
     http.Body := http.JSON data |}.

End api.

(** ** package categories *)

Module categories.

(** The anonymous struct that [HandleCreate] decodes the body into. *)
Module input.
Record t : Type := mk { Code : string; Name : string }.
End input.

Record CategoryProvider (S : Type) : Type :=
  { GetAllCategories : S -> go (list models.Category.t * option error) * S;
    CreateCategory : models.Category.t -> S -> go (option error) * S }.
Arguments GetAllCategories {S} _ _.
Arguments CreateCategory {S} _ _ _.

Definition created_message : json :=
  JObject [("message", JString "Category created successfully")].

Module CategoryResponse.
Record t : Type := mk { Code : string; Name : string }.
Definition to_json (c : t) : json :=
  JObject [("code", JString (Code c)); ("name", JString (Name c))].
End CategoryResponse.

(** *** app/categories/handler.go *)
Section CategoryHandler.

Context {S : Type}.
Variable repo : CategoryProvider S.
(** [json.NewDecoder(r.Body).Decode(&input)]; [None] stands for a
    non-nil [err]. *)
Variable Decode : string -> option input.t.

Definition HandleGetAll (r : http.Request) (h : S) : go http.ResponseRecorder * S :=
  match GetAllCategories repo h with
  | (Panic p, h') => (Panic p, h')
  | (Return (_, Some err), h') =>
      (Return (api.ErrorResponse http.StatusInternalServerError
                                 "failed to fetch categories"), h')
  | (Return (categories, None), h') =>
      let response :=
        List.map
          (fun c =>
             {| CategoryResponse.Code := models.Category.Code c;
                CategoryResponse.Name := models.Category.Name c |})
          categories in
      (Return (api.OKResponse (JArray (List.map CategoryResponse.to_json response))), h')
  end.

Definition HandleCreate (r : http.Request) (h : S) : go http.ResponseRecorder * S :=
  match Decode (http.RequestBody r) with
  | None =>
      (Return (api.ErrorResponse http.StatusBadRequest "Invalid JSON body"), h)
  | Some input =>
      if String.eqb (input.Code input) EmptyString || String.eqb (input.Name input) EmptyString
      then (Return (api.ErrorResponse http.StatusBadRequest "Missing code or name"), h)
      else
        let category :=
          {| models.Category.ID := 0;
             models.Category.Code := input.Code input;
             models.Category.Name := input.Name input |} in
        match CreateCategory repo category h with
        | (Panic p, h') => (Panic p, h')
        | (Return (Some err), h') =>
            (Return (api.ErrorResponse http.StatusInternalServerError
                                       "Failed to create category"), h')
        | (Return None, h') =>
            (Return {| http.Code := http.StatusCreated;
                       http.ContentType := Some "application/json";
                       http.Body := http.JSON created_message |}, h')
        end
  end.

End CategoryHandler.

(** *** The variant of the handler that replies with [http.Error] *)
Module plain.
Section CategoryHandler.

Context {S : Type}.
Variable repo : CategoryProvider S.
Variable Decode : string -> option input.t.

Definition HandleGetAll (r : http.Request) (h : S) : go http.ResponseRecorder * S :=
  match GetAllCategories repo h with
  | (Panic p, h') => (Panic p, h')
  | (Return (_, Some err), h') =>
      (Return (http.Error "failed to fetch categories" http.StatusInternalServerError), h')
  | (Return (categories, None), h') =>
      let response :=
        List.map
          (fun c =>
             {| CategoryResponse.Code := models.Category.Code c;
                CategoryResponse.Name := models.Category.Name c |})
          categories in
      (Return (catalog.encode_or_error
                 (JArray (List.map CategoryResponse.to_json response))), h')
  end.

Definition HandleCreate (r : http.Request) (h : S) : go http.ResponseRecorder * S :=
  match Decode (http.RequestBody r) with
  | None =>
      (Return (http.Error "Invalid JSON body" http.StatusBadRequest), h)
  | Some input =>
      if String.eqb (input.Code input) EmptyString || String.eqb (input.Name input) EmptyString
      then (Return (http.Error "Missing code or name" http.StatusBadRequest), h)
      else
        let category :=
          {| models.Category.ID := 0;
             models.Category.Code := input.Code input;
             models.Category.Name := input.Name input |} in
        match CreateCategory repo category h with
        | (Panic p, h') => (Panic p, h')
        | (Return (Some err), h') =>
            (Return (http.Error "Failed to create category"
                                http.StatusInternalServerError), h')
        | (Return None, h') =>
            (Return {| http.Code := http.StatusCreated;
                       http.ContentType := None;
                       http.Body := http.JSON created_message |}, h')
        end
  end.

End CategoryHandler.
End plain.

(** *** The in-memory provider of the tests *)
Module MockCategoryRepo.

Record t : Type := mk
  { Categories : list models.Category.t;
    CreateErr : option error;
    ListErr : option error;
    LastSaved : option models.Category.t }.

Definition GetAllCategories (m : t)
  : go (list models.Category.t * option error) * t :=
  match ListErr m with
  | Some err => (Return ([], Some err), m)
  | None => (Return (Categories m, None), m)
  end.

Definition CreateCategory (cat : models.Category.t) (m : t) : go (option error) * t :=
  let m :=
    {| Categories := Categories m; CreateErr := CreateErr m;
       ListErr := ListErr m; LastSaved := Some cat |} in
  (Return (CreateErr m), m).

Definition provider : CategoryProvider t :=
  {| categories.GetAllCategories := GetAllCategories;
     categories.CreateCategory := CreateCategory |}.

End MockCategoryRepo.

Inductive Call : Type :=
| CallGetAllCategories
| CallCreateCategory (category : models.Category.t).

Definition Recorded {S : Type} (repo : CategoryProvider S)
  : CategoryProvider (S * list Call) :=
  {| GetAllCategories '(s, log) :=
       let '(r, s') := GetAllCategories repo s in
       (r, (s', (log ++ [CallGetAllCategories])%list));
     CreateCategory category '(s, log) :=
       let '(r, s') := CreateCategory repo category s in
       (r, (s', (log ++ [CallCreateCategory category])%list)) |}.

(** The request bodies of [TestHandleCreate] and of the spec's scenario. *)
Definition quoted (s : string) : string :=
  String (ascii_of_nat 34) (String.append s (String (ascii_of_nat 34) EmptyString)).

Definition body_of (fields : list (string * string)) : string :=
  String.append "{"
    (String.append
       (String.concat ","
          (List.map (fun kv => String.append (quoted (fst kv))
                                 (String.append ":" (quoted (snd kv)))) fields))
       "}").

Definition body_success : string := body_of [("code", "accessories"); ("name", "Accessories")].
Definition body_invalid : string := "{invalid json".
Definition body_missing_code : string := body_of [("name", "MissingCode")].
Definition body_name_X : string := body_of [("name", "X")].
Definition body_toys : string := body_of [("code", "toys"); ("name", "Toys")].

(** Their decoding; any other body is taken as malformed.  The handlers
    take the decoder as a parameter: this one only runs the scenarios. *)
Definition Decode_scenarios (body : string) : option input.t :=
  if String.eqb body body_success
  then Some {| input.Code := "accessories"; input.Name := "Accessories" |}
  else if String.eqb body body_missing_code
  then Some {| input.Code := EmptyString; input.Name := "MissingCode" |}
  else if String.eqb body body_name_X
  then Some {| input.Code := EmptyString; input.Name := "X" |}
  else if String.eqb body body_toys
  then Some {| input.Code := "toys"; input.Name := "Toys" |}
  else None.

End categories.


(** ** The requests and the data of the tests *)

Module httptest.

(** A request whose query string carries the given parameters, one value
    each, as [httptest.NewRequest] makes it from the URL. *)
Definition NewRequest (query : list (string * string)) : http.Request :=
  {| http.Query := list_to_map (List.map (fun kv => (fst kv, [snd kv])) query);
     http.PathValues := ∅;
     http.RequestBody := EmptyString |}.

Definition SetPathValue (name value : string) (r : http.Request) : http.Request :=
  {| http.Query := http.Query r;
     http.PathValues := <[name := value]> (http.PathValues r);
     http.RequestBody := http.RequestBody r |}.

Definition NewRequestWithBody (body : string) : http.Request :=
  {| http.Query := ∅; http.PathValues := ∅; http.RequestBody := body |}.

End httptest.

Module testdata.

(** [newTestProduct(code, categoryCode, categoryName, price)], the price
    given as the decimal that [decimal.NewFromFloat] makes of it. *)
Definition newTestProduct (code categoryCode categoryName : string)
    (price : decimal.Decimal) : models.Product.t :=
  {| models.Product.ID := 0;
     models.Product.Code := code;
     models.Product.Price := price;
     models.Product.CategoryID := 0;
     models.Product.Category :=
       {| models.Category.ID := 0;
          models.Category.Code := categoryCode;
          models.Category.Name := categoryName |};
     models.Product.Variants := [] |}.

Definition PROD001 := newTestProduct "PROD001" "shoes" "Shoes" (decimal.New 1999 (-2)).
Definition PROD002 := newTestProduct "PROD002" "clothing" "Clothing" (decimal.New 2499 (-2)).
Definition PROD003 := newTestProduct "PROD003" "accessories" "Accessories" (decimal.New 10 0).
Definition PROD004 := newTestProduct "PROD004" "clothing" "Clothing" (decimal.New 955 (-1)).

(** [allMockProducts] of [TestHandleGet]. *)
Definition allMockProducts : list models.Product.t :=
  [PROD001; PROD002; PROD003; PROD004].

(** [allMockProducts] of [TestHandleGetProduct]. *)
Definition detailProducts : list models.Product.t :=
  [ {| models.Product.ID := 0;
       models.Product.Code := "PROD001";
       models.Product.Price := decimal.New 155 (-1);
       models.Product.CategoryID := 0;
       models.Product.Category :=
         {| models.Category.ID := 0; models.Category.Code := "clothing";
            models.Category.Name := "Clothing" |};
       models.Product.Variants :=
         [ {| models.Variant.Name := "Red Small"; models.Variant.SKU := "SKU001-A";
              models.Variant.Price := decimal.Zero |}; (* empty, should inherit *)
           {| models.Variant.Name := "Red Medium"; models.Variant.SKU := "SKU001-B";
              models.Variant.Price := decimal.New 1775 (-2) |} ] |};
    {| models.Product.ID := 0;
       models.Product.Code := "PROD100";
       models.Product.Price := decimal.New 30 0;
       models.Product.CategoryID := 0;
       models.Product.Category :=
         {| models.Category.ID := 0; models.Category.Code := "shoes";
            models.Category.Name := "Shoes" |};
       models.Product.Variants := [] |};
    {| models.Product.ID := 0;
       models.Product.Code := "PROD300";
       models.Product.Price := decimal.New 0 0;
       models.Product.CategoryID := 0;
       models.Product.Category :=
         {| models.Category.ID := 0; models.Category.Code := EmptyString;
            models.Category.Name := EmptyString |};
       models.Product.Variants :=
         [ {| models.Variant.Name := "No Price"; models.Variant.SKU := "SKU-ZERO";
              models.Variant.Price := decimal.Zero |} ] |} ].






(** The filters of a request without [category] and [price_lt]. *)
Definition no_filters : models.ProductFilters :=
  {| models.CategoryCode := EmptyString; models.PriceLessThan := None |}.

(** The table of the listing test, in a store that reports no failure. *)
Definition allProductsDB : models.gorm.DB :=
  {| models.gorm.products := allMockProducts; models.gorm.faults := [] |}.

(** [&MockCategoryRepo{}] and [&MockCategoryRepo{CreateErr: errors.New("insert failed")}] *)
Definition emptyCategoryRepo : categories.MockCategoryRepo.t :=
  categories.MockCategoryRepo.mk [] None None None.

Definition failingCategoryRepo : categories.MockCategoryRepo.t :=
  categories.MockCategoryRepo.mk [] (Some (errors_New "insert failed")) None None.

(** The categories of the test "Success with multiple categories". *)
Definition twoCategories : list models.Category.t :=
  [ {| models.Category.ID := 0; models.Category.Code := "clothing";
       models.Category.Name := "Clothing" |};
    {| models.Category.ID := 0; models.Category.Code := "shoes";
       models.Category.Name := "Shoes" |} ].

End testdata.

(** ** The properties of the specification, in its own words *)

Module spec.

Definition clamp (x lo hi : Z) : Z := Z.min (Z.max x lo) hi.

(** "normalized offset = max(parse(O) or 0, 0)" *)
Definition normalized_offset (O : string) : Z :=
  Z.max (default 0 (strconv.Atoi O)) 0.

(** "normalized limit = clamp(parse(L) or 10, 1, 100)" *)
Definition normalized_limit (L : string) : Z :=
  clamp (default 10 (strconv.Atoi L)) 1 100.

(** "apply category-code equality filter (if present) and
    price-strictly-less-than filter (if present)", for a given reading
    [price_lt] of "strictly less than" between a decimal price and the
    threshold. *)
Definition satisfies (price_lt : decimal.Decimal -> float64 -> bool)
    (filters : models.ProductFilters) (p : models.Product.t) : bool :=
  (String.eqb (models.CategoryCode filters) EmptyString
   || String.eqb (models.Category.Code (models.Product.Category p))
                 (models.CategoryCode filters))
  && match models.PriceLessThan filters with
     | None => true
     | Some t => price_lt (models.Product.Price p) t
     end.



End spec.

(** The comparison of the in-memory provider, as a reading of
    [products.price < ?]. *)
Definition mock_price_lt (price : decimal.Decimal) (t : float64) : bool :=
  negb (float64_ge (decimal.InexactFloat64 price) t).

(** The filters that [HandleGet] builds from the query string. *)
Definition parsed_filters (ParseFloat : string -> option float64) (r : http.Request)
  : models.ProductFilters :=
  {| models.CategoryCode := http.Values_Get (http.Query r) "category";
     models.PriceLessThan :=
       if negb (String.eqb (http.Values_Get (http.Query r) "price_lt") EmptyString)
       then ParseFloat (http.Values_Get (http.Query r) "price_lt")
       else None |}.


(** * Theorems *)

Import catalog.

(** ** Query parameters *)

Lemma offset_normalized (oStr : string) :
  (if negb (String.eqb oStr EmptyString) then
     match strconv.Atoi oStr with
     | Some o => if 0 <=? o then o else 0
     | None => 0
     end
   else 0) = spec.normalized_offset oStr.
Proof.
  unfold spec.normalized_offset.
  destruct (String.eqb_spec oStr EmptyString) as [-> | _]; cbn [negb].
  - reflexivity.
  - destruct (strconv.Atoi oStr) as [o |]; cbn; [| reflexivity].
    destruct (Z.leb_spec 0 o); lia.
Qed.

Lemma limit_normalized (lStr : string) :
  (if negb (String.eqb lStr EmptyString) then
     match strconv.Atoi lStr with
     | Some l => if l <? 1 then 1 else if 100 <? l then 100 else l
     | None => 10
     end
   else 10) = spec.normalized_limit lStr.
Proof.
  unfold spec.normalized_limit, spec.clamp.
  destruct (String.eqb_spec lStr EmptyString) as [-> | _]; cbn [negb].
  - reflexivity.
  - destruct (strconv.Atoi lStr) as [l |]; cbn; [| reflexivity].
    destruct (Z.ltb_spec l 1); [lia |].
    destruct (Z.ltb_spec 100 l); lia.
Qed.

(** [HandleGet] is one call of the provider, with the normalized
    arguments, followed by the mapping of its result. *)
Lemma HandleGet_call {S : Type} (repo : ProductProvider S)
    (ParseFloat : string -> option float64) (r : http.Request) (h : S) :
  HandleGet repo ParseFloat r h =
  match GetFilteredProducts repo
          (spec.normalized_offset (http.Values_Get (http.Query r) "offset"))
          (spec.normalized_limit (http.Values_Get (http.Query r) "limit"))
          (parsed_filters ParseFloat r) h with
  | (Panic p, h') => (Panic p, h')
  | (Return (res, total, Some err), h') =>
      (Return (http.Error (error_Error err) http.StatusInternalServerError), h')
  | (Return (res, total, None), h') =>
      (Return (encode_or_error
                 (Response.to_json
                    {| Response.Total := total;
                       Response.Products :=
                         List.map
                           (fun p =>
                              {| Product.Code := models.Product.Code p;
                                 Product.Price := decimal.InexactFloat64 (models.Product.Price p);
                                 Product.Category :=
                                   {| Category.Code := models.Category.Code (models.Product.Category p);
                                      Category.Name := models.Category.Name (models.Product.Category p) |} |})
                           res |})), h')
  end.
Proof.
  unfold HandleGet, parsed_filters.
  rewrite offset_normalized, limit_normalized.
  destruct (negb (String.eqb (http.Values_Get (http.Query r) "price_lt") EmptyString));
    [destruct (ParseFloat (http.Values_Get (http.Query r) "price_lt")) |]; reflexivity.
Qed.

Lemma Response_encodable (total : Z) (products : list Product.t) :
  Forall (fun p => float64_is_finite (Product.Price p) = true) products ->
  json_Encode (Response.to_json {| Response.Total := total; Response.Products := products |})
  = None.
Proof.
  intros Hfin. unfold json_Encode, Response.to_json. cbn.
  induction Hfin as [| p ps Hp _ IH]; cbn; [reflexivity |].
  rewrite Hp. exact IH.
Qed.

(** The mock stores the arguments of the listing call whatever it returns. *)
Lemma MockProductRepo_GetFilteredProducts_spied (offset limit : Z)
    (filters : models.ProductFilters) (m : MockProductRepo.t) :
  let m' := snd (MockProductRepo.GetFilteredProducts offset limit filters m) in
  MockProductRepo.lastCalledOffset m' = offset
  /\ MockProductRepo.lastCalledLimit m' = limit
  /\ MockProductRepo.lastCalledFilters m' = filters
  /\ MockProductRepo.SourceProducts m' = MockProductRepo.SourceProducts m.
Proof.
  unfold MockProductRepo.GetFilteredProducts. cbn.
  destruct (MockProductRepo.Err m); cbn; [tauto |].
  match goal with |- context [slice ?l ?a ?b] => destruct (slice l a b) end; cbn; tauto.
Qed.

Lemma HandleGet_state {S : Type} (repo : ProductProvider S)
    (ParseFloat : string -> option float64) (r : http.Request) (h : S) :
  snd (HandleGet repo ParseFloat r h) =
  snd (GetFilteredProducts repo
         (spec.normalized_offset (http.Values_Get (http.Query r) "offset"))
         (spec.normalized_limit (http.Values_Get (http.Query r) "limit"))
         (parsed_filters ParseFloat r) h).
Proof.
  rewrite HandleGet_call.
  destruct (GetFilteredProducts repo _ _ _ h) as [[[[res total] [err |]] | p] h']; reflexivity.
Qed.

(** C1. For every raw [offset] and [limit] of the query string, the list
    handler calls the store with offset [max(parse(offset) or 0, 0)] and
    limit [clamp(parse(limit) or 10, 1, 100)], whatever the provider and
    whatever it answers; the in-memory provider sees exactly these values;
    [offset=-10&limit=200] gives offset 0 and limit 100, and [limit=0]
    gives limit 1. *)
Theorem HandleGet_pagination_normalized :
  (forall (S : Type) (repo : ProductProvider S) (ParseFloat : string -> option float64)
          (r : http.Request) (h : S),
      snd (snd (HandleGet (Recorded repo) ParseFloat r (h, []))) =
      [CallGetFilteredProducts
         (spec.normalized_offset (http.Values_Get (http.Query r) "offset"))
         (spec.normalized_limit (http.Values_Get (http.Query r) "limit"))
         (parsed_filters ParseFloat r)])
  /\ (forall (ParseFloat : string -> option float64) (r : http.Request)
             (m : MockProductRepo.t),
         let m' := snd (HandleGet MockProductRepo.provider ParseFloat r m) in
         MockProductRepo.lastCalledOffset m'
         = Z.max (default 0 (strconv.Atoi (http.Values_Get (http.Query r) "offset"))) 0
         /\ MockProductRepo.lastCalledLimit m'
            = Z.min (Z.max (default 10 (strconv.Atoi (http.Values_Get (http.Query r) "limit"))) 1) 100)
  /\ (let m' := snd (HandleGet MockProductRepo.provider strconv.ParseFloat_plain
                       (httptest.NewRequest [("offset", "-10"); ("limit", "200")])
                       (MockProductRepo.new testdata.allMockProducts None)) in
      MockProductRepo.lastCalledOffset m' = 0 /\ MockProductRepo.lastCalledLimit m' = 100)
  /\ (let m' := snd (HandleGet MockProductRepo.provider strconv.ParseFloat_plain
                       (httptest.NewRequest [("limit", "0")])
                       (MockProductRepo.new testdata.allMockProducts None)) in
      MockProductRepo.lastCalledLimit m' = 1).
Proof.
  split; [| split; [| split]].
  - intros S repo ParseFloat r h.
    rewrite HandleGet_state. cbn.
    destruct (GetFilteredProducts repo _ _ _ h); reflexivity.
  - intros ParseFloat r m. cbv zeta.
    rewrite HandleGet_state.
    pose proof (MockProductRepo_GetFilteredProducts_spied
                  (spec.normalized_offset (http.Values_Get (http.Query r) "offset"))
                  (spec.normalized_limit (http.Values_Get (http.Query r) "limit"))
                  (parsed_filters ParseFloat r) m) as (Ho & Hl & _).
    split; [exact Ho | exact Hl].
  - vm_compute. split; reflexivity.
  - vm_compute. reflexivity.
Qed.

(** C5. No value of [offset], [limit], [category] or [price_lt] makes the
    list handler fail by itself: the store is called once; an [offset] or
    [limit] that does not parse is replaced by its default and a
    [price_lt] that does not parse leaves the price filter absent; when
    that store call succeeds (and its prices can be encoded) the reply is
    the 200 JSON reply, and a reply with another status comes from a store
    error or from a price that JSON cannot encode. *)
Theorem HandleGet_malformed_parameters_degrade :
  forall (S : Type) (repo : ProductProvider S) (ParseFloat : string -> option float64)
         (r : http.Request) (h : S),
  exists (offset limit : Z) (filters : models.ProductFilters),
    snd (snd (HandleGet (Recorded repo) ParseFloat r (h, [])))
    = [CallGetFilteredProducts offset limit filters]
    /\ (strconv.Atoi (http.Values_Get (http.Query r) "offset") = None -> offset = 0)
    /\ (strconv.Atoi (http.Values_Get (http.Query r) "limit") = None -> limit = 10)
    /\ (ParseFloat (http.Values_Get (http.Query r) "price_lt") = None ->
        models.PriceLessThan filters = None)
    /\ models.CategoryCode filters = http.Values_Get (http.Query r) "category"
    /\ (forall res total h',
           GetFilteredProducts repo offset limit filters h = (Return (res, total, None), h') ->
           Forall (fun p => float64_is_finite
                              (decimal.InexactFloat64 (models.Product.Price p)) = true) res ->
           exists v,
             HandleGet repo ParseFloat r h
             = (Return {| http.Code := http.StatusOK;
                          http.ContentType := Some "application/json";
                          http.Body := http.JSON v |}, h'))
    /\ (forall resp h',
           HandleGet repo ParseFloat r h = (Return resp, h') ->
           http.Code resp <> http.StatusOK ->
           (exists res total err,
               GetFilteredProducts repo offset limit filters h
               = (Return (res, total, Some err), h'))
           \/ (exists res total,
                  GetFilteredProducts repo offset limit filters h
                  = (Return (res, total, None), h')
                  /\ ~ Forall (fun p => float64_is_finite
                                          (decimal.InexactFloat64 (models.Product.Price p)) = true)
                              res)).
Proof.
  intros S repo ParseFloat r h.
  exists (spec.normalized_offset (http.Values_Get (http.Query r) "offset")),
         (spec.normalized_limit (http.Values_Get (http.Query r) "limit")),
         (parsed_filters ParseFloat r).
  repeat split.
  - rewrite HandleGet_state. cbn.
    destruct (GetFilteredProducts repo _ _ _ h); reflexivity.
  - intros Ho. unfold spec.normalized_offset. rewrite Ho. reflexivity.
  - intros Hl. unfold spec.normalized_limit. rewrite Hl. reflexivity.
  - intros Hp. unfold parsed_filters. cbn. rewrite Hp.
    destruct (negb _); reflexivity.
  - intros res total h' Hcall Hfin.
    rewrite HandleGet_call, Hcall. unfold encode_or_error.
    rewrite Response_encodable.
    + eexists. reflexivity.
    + cbn. apply Forall_map. exact Hfin.
  - intros resp h' Hrun Hcode.
    rewrite HandleGet_call in Hrun.
    destruct (GetFilteredProducts repo _ _ _ h) as [[[[res total] [err |]] | p] h1];
      inversion Hrun; subst; clear Hrun.
    + left. eauto.
    + right. exists res, total. split; [reflexivity |].
      intros Hfin. apply Hcode. unfold encode_or_error.
      rewrite Response_encodable; [reflexivity |].
      cbn. apply Forall_map. exact Hfin.
Qed.

Lemma HandleGet_malformed_parameters_degrade_witness :
  strconv.Atoi "abc" = None /\ strconv.Atoi "xyz" = None
  /\ strconv.ParseFloat_plain "def" = None
  /\ (exists v m',
         HandleGet MockProductRepo.provider strconv.ParseFloat_plain
           (httptest.NewRequest [("offset", "abc"); ("limit", "xyz"); ("price_lt", "def")])
           (MockProductRepo.new testdata.allMockProducts None)
         = (Return {| http.Code := http.StatusOK;
                      http.ContentType := Some "application/json";
                      http.Body := http.JSON v |}, m'))
  /\ exists offset limit filters h',
      (exists res total err,
          GetFilteredProducts MockProductRepo.provider offset limit filters
            (MockProductRepo.new [] (Some (errors_New "db down")))
          = (Return (res, total, Some err), h'))
      \/ (exists res total,
             GetFilteredProducts MockProductRepo.provider offset limit filters
               (MockProductRepo.new [] (Some (errors_New "db down")))
             = (Return (res, total, None), h')
             /\ ~ Forall (fun p => float64_is_finite
                                     (decimal.InexactFloat64 (models.Product.Price p)) = true)
                         res).
Proof.
  repeat (split; [vm_compute; reflexivity |]).
  split.
  - destruct (HandleGet_malformed_parameters_degrade _ MockProductRepo.provider
                strconv.ParseFloat_plain
                (httptest.NewRequest [("offset", "abc"); ("limit", "xyz"); ("price_lt", "def")])
                (MockProductRepo.new testdata.allMockProducts None))
      as (offset & limit & [cat thr] & _ & Ho & Hl & Hp & Hc & Hok & _).
    rewrite (Ho ltac:(vm_compute; reflexivity)), (Hl ltac:(vm_compute; reflexivity)) in Hok.
    cbn [models.PriceLessThan models.CategoryCode] in Hp, Hc.
    rewrite (Hp ltac:(vm_compute; reflexivity)), Hc in Hok.
    destruct (Hok testdata.allMockProducts 4
                (snd (MockProductRepo.GetFilteredProducts 0 10 testdata.no_filters
                        (MockProductRepo.new testdata.allMockProducts None))))
      as [v Hv].
    + vm_compute. reflexivity.
    + repeat constructor.
    + exists v. eexists. exact Hv.
  - destruct (HandleGet_malformed_parameters_degrade _ MockProductRepo.provider
                strconv.ParseFloat_plain (httptest.NewRequest [])
                (MockProductRepo.new [] (Some (errors_New "db down"))))
      as (offset & limit & filters & _ & _ & _ & _ & _ & _ & Herr).
    exists offset, limit, filters.
    eexists.
    apply (Herr (http.Error "db down" http.StatusInternalServerError)).
    + vm_compute. reflexivity.
    + vm_compute. intros H. discriminate H.
Defined.

(** ** Store errors *)

Lemma HandleGet_store_error {S : Type} (repo : ProductProvider S)
    (ParseFloat : string -> option float64) (r : http.Request) (h h' : S)
    (res : list models.Product.t) (total : Z) (err : error) :
  GetFilteredProducts repo
    (spec.normalized_offset (http.Values_Get (http.Query r) "offset"))
    (spec.normalized_limit (http.Values_Get (http.Query r) "limit"))
    (parsed_filters ParseFloat r) h = (Return (res, total, Some err), h') ->
  HandleGet repo ParseFloat r h
  = (Return (http.Error (error_Error err) http.StatusInternalServerError), h').
Proof. intros Hcall. rewrite HandleGet_call, Hcall. reflexivity. Qed.

(** C7 (the code departs from the specification).  When the store fails
    during the listing, [HandleGet] replies 500 with the text of the
    store's own error, through [http.Error(w, err.Error(), ...)]: with the
    failing provider of the test "Repository error" the body is "db down"
    and not the fixed message "failed to get products" that the test
    expects. *)
Theorem HandleGet_store_error_text :
  (forall (ParseFloat : string -> option float64) (r : http.Request)
          (ps : list models.Product.t) (err : error),
      fst (HandleGet MockProductRepo.provider ParseFloat r (MockProductRepo.new ps (Some err)))
      = Return (http.Error (error_Error err) http.StatusInternalServerError))
  /\ fst (HandleGet MockProductRepo.provider strconv.ParseFloat_plain
            (httptest.NewRequest [])
            (MockProductRepo.new [] (Some (errors_New "db down"))))
     = Return {| http.Code := 500;
                 http.ContentType := Some "text/plain; charset=utf-8";
                 http.Body := http.Text (String.append "db down" http.newline) |}
  /\ fst (HandleGet MockProductRepo.provider strconv.ParseFloat_plain
            (httptest.NewRequest [])
            (MockProductRepo.new [] (Some (errors_New "db down"))))
     <> Return (http.Error "failed to get products" http.StatusInternalServerError)
  /\ fst (HandleGet MockProductRepo.provider strconv.ParseFloat_plain
            (httptest.NewRequest [])
            (MockProductRepo.new [] (Some (errors_New "db down"))))
     <> Return (api.ErrorResponse http.StatusInternalServerError "failed to get products").
Proof.
  split; [| split; [| split]].
  - intros ParseFloat r ps err.
    erewrite HandleGet_store_error; [reflexivity | reflexivity].
  - vm_compute. reflexivity.
  - vm_compute. intros H. discriminate H.
  - vm_compute. intros H. discriminate H.
Qed.

Lemma HandleGetProduct_error {S : Type} (repo : ProductProvider S)
    (r : http.Request) (h h' : S) (product : option models.Product.t) (err : error) :
  GetByCode repo (http.PathValue r "code") h = (Return (product, Some err), h') ->
  HandleGetProduct repo r h
  = (Return (http.Error "Product not found" http.StatusNotFound), h').
Proof.
  intros Hcall. unfold HandleGetProduct. rewrite Hcall.
  destruct product; reflexivity.
Qed.

Lemma HandleGetProduct_state {S : Type} (repo : ProductProvider S)
    (r : http.Request) (h : S) :
  snd (HandleGetProduct repo r h) = snd (GetByCode repo (http.PathValue r "code") h).
Proof.
  unfold HandleGetProduct.
  destruct (GetByCode repo _ h) as [[[[product |] [err |]] | p] h']; reflexivity.
Qed.

(** The repository keeps a failure of the store apart from the absence of
    the product. *)
Lemma GetByCode_store_failure (code text : string) (rows : list models.Product.t)
    (rest : list (option error)) :
  models.ProductsRepository.GetByCode code
    {| models.gorm.products := rows; models.gorm.faults := Some (errors_New text) :: rest |}
  = ((None, Some (errors_New text)),
     {| models.gorm.products := rows; models.gorm.faults := rest |}).
Proof. reflexivity. Qed.

(** C6 (the code departs from the specification).  [HandleGetProduct]
    answers every error of [GetByCode] with 404 "Product not found": a
    failing store is not told apart from a missing product, although the
    repository returns [ErrProductNotFound] only for the latter.  With the
    failing provider of the test "Repository internal error" the reply is
    404 and not the 500 "Failed to retrieve product" that the test
    expects. *)
Theorem HandleGetProduct_store_error_conflated :
  (forall (r : http.Request) (ps : list models.Product.t) (err : error),
      fst (HandleGetProduct MockProductRepo.provider r (MockProductRepo.new ps (Some err)))
      = Return (http.Error "Product not found" http.StatusNotFound))
  /\ (forall (sql_price_lt : decimal.Decimal -> float64 -> bool) (r : http.Request)
             (rows : list models.Product.t) (text : string) (rest : list (option error)),
         fst (HandleGetProduct (ProductsRepository sql_price_lt) r
                {| models.gorm.products := rows;
                   models.gorm.faults := Some (errors_New text) :: rest |})
         = Return (http.Error "Product not found" http.StatusNotFound))
  /\ fst (HandleGetProduct MockProductRepo.provider
            (httptest.SetPathValue "code" "PROD-ERR" (httptest.NewRequest []))
            (MockProductRepo.new [] (Some (errors_New "db connection lost"))))
     = Return {| http.Code := 404;
                 http.ContentType := Some "text/plain; charset=utf-8";
                 http.Body := http.Text (String.append "Product not found" http.newline) |}.
Proof.
  split; [| split].
  - intros r ps err.
    erewrite HandleGetProduct_error; [reflexivity | reflexivity].
  - intros sql_price_lt r rows text rest.
    erewrite HandleGetProduct_error; [reflexivity |].
    cbn [GetByCode ProductsRepository]. rewrite GetByCode_store_failure. reflexivity.
  - vm_compute. reflexivity.
Qed.

(** ** The detail endpoint *)

Lemma find_none_of {A : Type} (f : A -> bool) (l : list A) :
  (forall x, In x l -> f x = false) -> List.find f l = None.
Proof.
  induction l as [| a l IH]; intros Hall; cbn; [reflexivity |].
  rewrite (Hall a (or_introl eq_refl)). apply IH.
  intros x Hx. apply Hall. right. exact Hx.
Qed.

Lemma filter_nil_of {A : Type} (f : A -> bool) (l : list A) :
  (forall x, In x l -> f x = false) -> List.filter f l = [].
Proof.
  induction l as [| a l IH]; intros Hall; cbn; [reflexivity |].
  rewrite (Hall a (or_introl eq_refl)). apply IH.
  intros x Hx. apply Hall. right. exact Hx.
Qed.

Lemma code_differs (p : models.Product.t) (code : string) :
  models.Product.Code p <> code -> String.eqb (models.Product.Code p) code = false.
Proof. intros Hne. apply String.eqb_neq. exact Hne. Qed.

(** C10. The detail handler does not look at the path's product code
    before it queries: for every code, the empty one included, the one
    call it makes is [GetByCode] with that code, and when no product has
    the code the reply is 404 "Product not found". *)
Theorem HandleGetProduct_queries_any_code :
  (forall (S : Type) (repo : ProductProvider S) (r : http.Request) (h : S),
      snd (snd (HandleGetProduct (Recorded repo) r (h, [])))
      = [CallGetByCode (http.PathValue r "code")])
  /\ (forall (r : http.Request) (m : MockProductRepo.t),
         MockProductRepo.lastCalledCode (snd (HandleGetProduct MockProductRepo.provider r m))
         = http.PathValue r "code")
  /\ (forall (r : http.Request) (ps : list models.Product.t),
         (forall p, In p ps -> models.Product.Code p <> http.PathValue r "code") ->
         fst (HandleGetProduct MockProductRepo.provider r (MockProductRepo.new ps None))
         = Return (http.Error "Product not found" http.StatusNotFound))
  /\ (forall (sql_price_lt : decimal.Decimal -> float64 -> bool) (r : http.Request)
             (rows : list models.Product.t),
         (forall p, In p rows -> models.Product.Code p <> http.PathValue r "code") ->
         fst (HandleGetProduct (ProductsRepository sql_price_lt) r
                {| models.gorm.products := rows; models.gorm.faults := [] |})
         = Return (http.Error "Product not found" http.StatusNotFound)).
Proof.
  split; [| split; [| split]].
  - intros S repo r h. rewrite HandleGetProduct_state. cbn.
    destruct (GetByCode repo _ h); reflexivity.
  - intros r m. rewrite HandleGetProduct_state. cbn.
    unfold MockProductRepo.GetByCode. cbn.
    destruct (MockProductRepo.Err m); [reflexivity |].
    destruct (List.find _ _); reflexivity.
  - intros r ps Hnone.
    erewrite HandleGetProduct_error; [reflexivity |].
    cbn. unfold MockProductRepo.GetByCode. cbn.
    rewrite find_none_of; [reflexivity |].
    intros p Hp. apply code_differs, Hnone, Hp.
  - intros sql_price_lt r rows Hnone.
    erewrite HandleGetProduct_error; [reflexivity |].
    cbn. unfold models.ProductsRepository.GetByCode, models.gorm.First,
      models.gorm.exec, models.gorm.selected. cbn.
    rewrite filter_nil_of; [reflexivity |].
    intros p Hp. rewrite (code_differs p _ (Hnone p Hp)). reflexivity.
Qed.

Lemma HandleGetProduct_queries_any_code_witness :
  (forall p, In p testdata.detailProducts ->
             models.Product.Code p
             <> http.PathValue (httptest.SetPathValue "code" EmptyString (httptest.NewRequest []))
                               "code")
  /\ fst (HandleGetProduct MockProductRepo.provider
            (httptest.SetPathValue "code" EmptyString (httptest.NewRequest []))
            (MockProductRepo.new testdata.detailProducts None))
     = Return (http.Error "Product not found" http.StatusNotFound)
  /\ fst (HandleGetProduct (ProductsRepository mock_price_lt)
            (httptest.SetPathValue "code" EmptyString (httptest.NewRequest []))
            {| models.gorm.products := testdata.detailProducts; models.gorm.faults := [] |})
     = Return (http.Error "Product not found" http.StatusNotFound).
Proof.
  assert (Hnone : forall p, In p testdata.detailProducts ->
             models.Product.Code p
             <> http.PathValue (httptest.SetPathValue "code" EmptyString (httptest.NewRequest []))
                               "code").
  { intros p Hp. cbn in Hp.
    destruct Hp as [<- | [<- | [<- | []]]]; vm_compute; intros H; discriminate H. }
  split; [exact Hnone |]. split.
  - apply (proj1 (proj2 (proj2 HandleGetProduct_queries_any_code))). exact Hnone.
  - apply (proj2 (proj2 (proj2 HandleGetProduct_queries_any_code))). exact Hnone.
Defined.

Lemma map_lookup_Some {A B : Type} (f : A -> B) (l : list A) (i : nat) (x : A) :
  l !! i = Some x -> List.map f l !! i = Some (f x).
Proof.
  revert i. induction l as [| a l IH]; intros [| i] Hi; cbn in *;
    try discriminate Hi.
  - inversion Hi. reflexivity.
  - apply IH. exact Hi.
Qed.

(** What [HandleGetProduct] makes of a product that the store returned. *)
Lemma HandleGetProduct_found {S : Type} (repo : ProductProvider S)
    (r : http.Request) (h h' : S) (product : models.Product.t) :
  GetByCode repo (http.PathValue r "code") h = (Return (Some product, None), h') ->
  HandleGetProduct repo r h
  = (Return
       (encode_or_error
          (ProductDetail.to_json
             {| ProductDetail.Code := models.Product.Code product;
                ProductDetail.Price := decimal.InexactFloat64 (models.Product.Price product);
                ProductDetail.Category :=
                  {| Category.Code := models.Category.Code (models.Product.Category product);
                     Category.Name := models.Category.Name (models.Product.Category product) |};
                ProductDetail.Variants :=
                  List.map
                    (fun v =>
                       {| Variant.Name := models.Variant.Name v;
                          Variant.SKU := models.Variant.SKU v;
                          Variant.Price :=
                            decimal.InexactFloat64
                              (if decimal.IsZero (models.Variant.Price v)
                               then models.Product.Price product
                               else models.Variant.Price v) |})
                    (models.Product.Variants product) |})), h').
Proof. intros Hcall. unfold HandleGetProduct. rewrite Hcall. reflexivity. Qed.

Lemma MockProductRepo_GetByCode_products (code : string) (m : MockProductRepo.t) :
  MockProductRepo.SourceProducts (snd (MockProductRepo.GetByCode code m))
  = MockProductRepo.SourceProducts m.
Proof.
  unfold MockProductRepo.GetByCode. cbn.
  destruct (MockProductRepo.Err m); [reflexivity |].
  destruct (List.find _ _); reflexivity.
Qed.

Lemma gorm_exec_products {A : Type} (run : list models.Product.t -> A) (db : models.gorm.DB) :
  models.gorm.products (snd (models.gorm.exec run db)) = models.gorm.products db.
Proof.
  unfold models.gorm.exec.
  destruct (models.gorm.faults db) as [| [e |] rest]; reflexivity.
Qed.

Lemma ProductsRepository_GetByCode_products (code : string) (db : models.gorm.DB) :
  models.gorm.products (snd (models.ProductsRepository.GetByCode code db))
  = models.gorm.products db.
Proof.
  unfold models.ProductsRepository.GetByCode, models.gorm.First.
  pose proof (gorm_exec_products
                (models.gorm.selected
                   (models.gorm.Where (fun p => String.eqb (models.Product.Code p) code)
                                      models.gorm.Model)) db) as Hdb.
  destruct (models.gorm.exec _ db) as [[e | [| p rest]] db']; cbn in *;
    [destruct (errors_Is e gorm_ErrRecordNotFound) | |]; exact Hdb.
Qed.

(** C2. In the detail reply, every variant of the product is rendered at
    its own position with its name and SKU; its price is the parent
    product's (rendered) price when its own price is zero or absent, and
    its own price otherwise.  The handler only reads: the products kept by
    the store are the same after the request. *)
Theorem HandleGetProduct_variant_price_inheritance :
  (forall (S : Type) (repo : ProductProvider S) (r : http.Request) (h h' : S)
          (product : models.Product.t),
      GetByCode repo (http.PathValue r "code") h = (Return (Some product, None), h') ->
      exists detail : ProductDetail.t,
        HandleGetProduct repo r h
        = (Return (encode_or_error (ProductDetail.to_json detail)), h')
        /\ ProductDetail.Price detail = decimal.InexactFloat64 (models.Product.Price product)
        /\ length (ProductDetail.Variants detail) = length (models.Product.Variants product)
        /\ forall (i : nat) (v : models.Variant.t),
            models.Product.Variants product !! i = Some v ->
            exists w : Variant.t,
              ProductDetail.Variants detail !! i = Some w
              /\ Variant.Name w = models.Variant.Name v
              /\ Variant.SKU w = models.Variant.SKU v
              /\ (decimal.IsZero (models.Variant.Price v) = true ->
                  Variant.Price w = ProductDetail.Price detail)
              /\ (decimal.IsZero (models.Variant.Price v) = false ->
                  Variant.Price w = decimal.InexactFloat64 (models.Variant.Price v)))
  /\ (forall (r : http.Request) (m : MockProductRepo.t),
         MockProductRepo.SourceProducts (snd (HandleGetProduct MockProductRepo.provider r m))
         = MockProductRepo.SourceProducts m)
  /\ (forall (sql_price_lt : decimal.Decimal -> float64 -> bool) (r : http.Request)
             (db : models.gorm.DB),
         models.gorm.products (snd (HandleGetProduct (ProductsRepository sql_price_lt) r db))
         = models.gorm.products db).
Proof.
  split; [| split].
  - intros S repo r h h' product Hcall.
    eexists. split; [apply HandleGetProduct_found; exact Hcall |].
    cbn [ProductDetail.Price ProductDetail.Variants].
    split; [reflexivity |]. split; [apply length_map |].
    intros i v Hv.
    eexists. split; [apply map_lookup_Some; exact Hv |].
    cbn [Variant.Name Variant.SKU Variant.Price].
    repeat split.
    + intros Hz. rewrite Hz. reflexivity.
    + intros Hz. rewrite Hz. reflexivity.
  - intros r m. rewrite HandleGetProduct_state. cbn.
    apply MockProductRepo_GetByCode_products.
  - intros sql_price_lt r db. rewrite HandleGetProduct_state. cbn.
    pose proof (ProductsRepository_GetByCode_products (http.PathValue r "code") db) as Hdb.
    destruct (models.ProductsRepository.GetByCode _ db) as [res db']. exact Hdb.
Qed.

Lemma HandleGetProduct_variant_price_inheritance_witness :
  exists (detail : ProductDetail.t) (w0 w1 : Variant.t) (m' : MockProductRepo.t),
    HandleGetProduct MockProductRepo.provider
      (httptest.SetPathValue "code" "PROD001" (httptest.NewRequest []))
      (MockProductRepo.new testdata.detailProducts None)
    = (Return (encode_or_error (ProductDetail.to_json detail)), m')
    /\ ProductDetail.Variants detail !! 0%nat = Some w0
    /\ Variant.Price w0 = ProductDetail.Price detail
    /\ ProductDetail.Variants detail !! 1%nat = Some w1
    /\ Variant.Price w1 = decimal.InexactFloat64 (decimal.New 1775 (-2)).
Proof.
  destruct (proj1 HandleGetProduct_variant_price_inheritance _
              MockProductRepo.provider
              (httptest.SetPathValue "code" "PROD001" (httptest.NewRequest []))
              (MockProductRepo.new testdata.detailProducts None)
              (snd (MockProductRepo.GetByCode "PROD001"
                      (MockProductRepo.new testdata.detailProducts None)))
              (List.hd testdata.PROD001 testdata.detailProducts)
              ltac:(vm_compute; reflexivity))
    as (detail & Hrun & _ & _ & Hvar).
  destruct (Hvar 0%nat
              {| models.Variant.Name := "Red Small"; models.Variant.SKU := "SKU001-A";
                 models.Variant.Price := decimal.Zero |} eq_refl)
    as (w0 & Hw0 & _ & _ & Hinherit & _).
  destruct (Hvar 1%nat
              {| models.Variant.Name := "Red Medium"; models.Variant.SKU := "SKU001-B";
                 models.Variant.Price := decimal.New 1775 (-2) |} eq_refl)
    as (w1 & Hw1 & _ & _ & _ & Hown).
  exists detail, w0, w1. eexists.
  split; [exact Hrun |].
  split; [exact Hw0 |].
  split; [apply Hinherit; reflexivity |].
  split; [exact Hw1 |].
  apply Hown. reflexivity.
Defined.

(** ** The filtered listing *)

(** The conditions that [GetFilteredProducts] chains with [Where]. *)
Lemma GetFilteredProducts_conds (sql_price_lt : decimal.Decimal -> float64 -> bool)
    (filters : models.ProductFilters) (p : models.Product.t) :
  let query := models.gorm.Model in
  let query :=
    if negb (String.eqb (models.CategoryCode filters) EmptyString)
    then models.gorm.Where
           (fun p => String.eqb (models.Category.Code (models.Product.Category p))
                                (models.CategoryCode filters)) query
    else query in
  let query :=
    match models.PriceLessThan filters with
    | Some price =>
        models.gorm.Where (fun p => sql_price_lt (models.Product.Price p) price) query
    | None => query
    end in
  forallb (fun c => c p) (models.gorm.conds query) = spec.satisfies sql_price_lt filters p.
Proof.
  unfold spec.satisfies.
  destruct (String.eqb (models.CategoryCode filters) EmptyString);
    destruct (models.PriceLessThan filters) as [t |]; cbn;
    rewrite ?andb_true_r; reflexivity.
Qed.

Lemma filter_ext_eq {A : Type} (f g : A -> bool) (l : list A) :
  (forall x, f x = g x) -> List.filter f l = List.filter g l.
Proof.
  intros Hfg. induction l as [| a l IH]; cbn; [reflexivity |].
  rewrite Hfg, IH. reflexivity.
Qed.

(** Counting, then fetching the page: the two statements of a listing. *)
Lemma count_then_find (query : models.gorm.Statement) (offset limit : Z)
    (db db' : models.gorm.DB) (page : list models.Product.t) (total : Z) :
  match models.gorm.Count query db with
  | (inl err, db1) => (([], 0, Some err), db1)
  | (inr total, db1) =>
      match models.gorm.Find (models.gorm.Limit limit (models.gorm.Offset offset query)) db1 with
      | (inl err, db2) => (([], 0, Some err), db2)
      | (inr products, db2) => ((products, total, None), db2)
      end
  end = ((page, total, None), db') ->
  total = Z.of_nat (length (models.gorm.selected query (models.gorm.products db)))
  /\ page = models.gorm.paginate
              {| models.gorm.conds := []; models.gorm.offset := offset;
                 models.gorm.limit := Some limit |}
              (models.gorm.selected query (models.gorm.products db))
  /\ models.gorm.products db' = models.gorm.products db.
Proof.
  unfold models.gorm.Count, models.gorm.Find, models.gorm.exec.
  destruct db as [rows fs].
  destruct fs as [| [e |] [| [e' |] rest]]; cbn; intros Hrun;
    inversion Hrun; subst; repeat split; reflexivity.
Qed.

(** A listing that returns no error returns the count of the selected rows
    and their page, and leaves the table as it was. *)
Lemma GetFilteredProducts_returns (sql_price_lt : decimal.Decimal -> float64 -> bool)
    (offset limit : Z) (filters : models.ProductFilters) (db db' : models.gorm.DB)
    (page : list models.Product.t) (total : Z) :
  models.ProductsRepository.GetFilteredProducts sql_price_lt offset limit filters db
  = ((page, total, None), db') ->
  let filtered := List.filter (spec.satisfies sql_price_lt filters) (models.gorm.products db) in
  total = Z.of_nat (length filtered)
  /\ page = models.gorm.paginate
              {| models.gorm.conds := []; models.gorm.offset := offset;
                 models.gorm.limit := Some limit |} filtered
  /\ models.gorm.products db' = models.gorm.products db.
Proof.
  intros Hrun filtered.
  unfold models.ProductsRepository.GetFilteredProducts in Hrun. cbv zeta in Hrun.
  apply count_then_find in Hrun.
  pose proof (GetFilteredProducts_conds sql_price_lt filters) as Hconds.
  cbv zeta in Hconds.
  unfold models.gorm.selected in Hrun.
  rewrite (filter_ext_eq _ _ _ Hconds) in Hrun.
  exact Hrun.
Qed.

Lemma GetFilteredProducts_no_fault (sql_price_lt : decimal.Decimal -> float64 -> bool)
    (offset limit : Z) (filters : models.ProductFilters) (rows : list models.Product.t) :
  exists page total,
    models.ProductsRepository.GetFilteredProducts sql_price_lt offset limit filters
      {| models.gorm.products := rows; models.gorm.faults := [] |}
    = ((page, total, None), {| models.gorm.products := rows; models.gorm.faults := [] |}).
Proof.
  unfold models.ProductsRepository.GetFilteredProducts, models.gorm.Count,
    models.gorm.Find, models.gorm.exec. cbn. eauto.
Qed.


Lemma paginate_firstn_skipn (offset limit : Z) (l : list models.Product.t) :
  0 <= offset -> 0 <= limit ->
  models.gorm.paginate
    {| models.gorm.conds := []; models.gorm.offset := offset;
       models.gorm.limit := Some limit |} l
  = firstn (Z.to_nat limit) (skipn (Z.to_nat offset) l).
Proof.
  intros Ho Hl. unfold models.gorm.paginate. cbn.
  destruct (Z.leb_spec 0 limit); [| lia].
  destruct (Z.ltb_spec 0 offset); [reflexivity |].
  replace offset with 0 by lia. reflexivity.
Qed.



(** ** float64 comparisons and conversions *)













(** ** The in-memory provider against the repository *)

Lemma MockProductRepo_matches_satisfies (filters : models.ProductFilters)
    (p : models.Product.t) :
  MockProductRepo.matches filters p = spec.satisfies mock_price_lt filters p.
Proof.
  unfold MockProductRepo.matches, spec.satisfies, mock_price_lt.
  destruct (String.eqb (models.CategoryCode filters) EmptyString);
    destruct (String.eqb _ (models.CategoryCode filters));
    destruct (models.PriceLessThan filters) as [t |]; cbn;
    try destruct (float64_ge _ t); reflexivity.
Qed.

Lemma wrap64_in_range (z : Z) : MinInt64 <= z <= MaxInt64 -> wrap64 z = z.
Proof.
  unfold wrap64, MinInt64, MaxInt64. intros Hz.
  rewrite Z.mod_small; lia.
Qed.

(** The clamped bounds of the mock cut the page that [OFFSET] and [LIMIT]
    cut. *)
Lemma slice_clamped {A : Type} (l : list A) (offset limit : Z) :
  0 <= offset -> 0 <= limit ->
  slice l
    (if Z.of_nat (length l) <? offset then Z.of_nat (length l) else offset)
    (if Z.of_nat (length l) <? offset + limit then Z.of_nat (length l) else offset + limit)
  = Return (firstn (Z.to_nat limit) (skipn (Z.to_nat offset) l)).
Proof.
  intros Ho Hl. unfold slice.
  destruct (Z.ltb_spec (Z.of_nat (length l)) offset) as [Hlt | Hge].
  - destruct (Z.ltb_spec (Z.of_nat (length l)) (offset + limit)); [| lia].
    replace ((0 <=? Z.of_nat (length l)) && (Z.of_nat (length l) <=? Z.of_nat (length l))
             && (Z.of_nat (length l) <=? Z.of_nat (length l))) with true
      by (symmetry; repeat (apply andb_true_intro; split); apply Z.leb_le; lia).
    rewrite Z.sub_diag, Nat2Z.id. cbn [Z.to_nat firstn].
    rewrite (drop_ge l (Z.to_nat offset)) by lia.
    rewrite firstn_nil. reflexivity.
  - destruct (Z.ltb_spec (Z.of_nat (length l)) (offset + limit)) as [Hlt' | Hge'].
    + replace ((0 <=? offset) && (offset <=? Z.of_nat (length l))
               && (Z.of_nat (length l) <=? Z.of_nat (length l))) with true
        by (symmetry; repeat (apply andb_true_intro; split); apply Z.leb_le; lia).
      f_equal.
      rewrite (take_ge (skipn (Z.to_nat offset) l) (Z.to_nat limit))
        by (rewrite length_drop; lia).
      apply take_ge. rewrite length_drop. lia.
    + replace ((0 <=? offset) && (offset <=? offset + limit)
               && (offset + limit <=? Z.of_nat (length l))) with true
        by (symmetry; repeat (apply andb_true_intro; split); apply Z.leb_le; lia).
      f_equal. f_equal. f_equal. lia.
Qed.

(** While [offset + limit] stays an int64, the in-memory provider returns
    what the repository returns from the same rows, under the comparison
    [mock_price_lt]. *)
Lemma MockProductRepo_GetFilteredProducts_refines (offset limit : Z)
    (filters : models.ProductFilters) (ps : list models.Product.t) :
  0 <= offset -> 0 <= limit -> offset + limit <= MaxInt64 ->
  fst (MockProductRepo.GetFilteredProducts offset limit filters (MockProductRepo.new ps None))
  = Return (fst (models.ProductsRepository.GetFilteredProducts mock_price_lt
                   offset limit filters
                   {| models.gorm.products := ps; models.gorm.faults := [] |})).
Proof.
  intros Ho Hl Hsum.
  destruct (GetFilteredProducts_no_fault mock_price_lt offset limit filters ps)
    as (page & total & Hrepo).
  rewrite Hrepo. cbn [fst].
  apply GetFilteredProducts_returns in Hrepo. cbv zeta in Hrepo.
  cbn [models.gorm.products] in Hrepo.
  destruct Hrepo as (-> & -> & _).
  rewrite paginate_firstn_skipn by lia.
  unfold MockProductRepo.GetFilteredProducts. cbn.
  rewrite wrap64_in_range by (unfold MinInt64, MaxInt64 in *; lia).
  rewrite (filter_ext_eq _ _ ps (MockProductRepo_matches_satisfies filters)).
  rewrite slice_clamped by lia. reflexivity.
Qed.

(** Beyond that the sum wraps around and the slice expression panics. *)
Lemma MockProductRepo_GetFilteredProducts_wraps :
  strconv.Atoi "9223372036854775807" = Some MaxInt64
  /\ fst (MockProductRepo.GetFilteredProducts MaxInt64 10
            {| models.CategoryCode := EmptyString; models.PriceLessThan := None |}
            (MockProductRepo.new testdata.allMockProducts None))
     = Panic SliceBoundsOutOfRange.
Proof. split; vm_compute; reflexivity. Qed.





(** ** Category creation *)

Lemma missing_field (input : categories.input.t) :
  categories.input.Code input = EmptyString \/ categories.input.Name input = EmptyString ->
  String.eqb (categories.input.Code input) EmptyString
  || String.eqb (categories.input.Name input) EmptyString = true.
Proof.
  intros [-> | ->]; cbn; [reflexivity | apply orb_true_r].
Qed.

Lemma both_fields (input : categories.input.t) :
  categories.input.Code input <> EmptyString ->
  categories.input.Name input <> EmptyString ->
  String.eqb (categories.input.Code input) EmptyString
  || String.eqb (categories.input.Name input) EmptyString = false.
Proof.
  intros Hc Hn. apply String.eqb_neq in Hc, Hn. rewrite Hc, Hn. reflexivity.
Qed.

(** C8. The four outcomes of category creation, for the handler and for
    its [http.Error] variant: a body that does not decode gives 400
    "Invalid JSON body"; a decoded body with an empty code or name gives
    400 "Missing code or name", without any call to the store, whose state
    is unchanged; a valid body gives 500 "Failed to create category" when
    the store's create fails and 201 "Category created successfully" when
    it succeeds. *)
Theorem HandleCreate_outcomes :
  forall (S : Type) (repo : categories.CategoryProvider S)
         (Decode : string -> option categories.input.t) (r : http.Request) (h : S),
    (Decode (http.RequestBody r) = None ->
     categories.HandleCreate repo Decode r h
     = (Return (api.ErrorResponse http.StatusBadRequest "Invalid JSON body"), h)
     /\ categories.plain.HandleCreate repo Decode r h
        = (Return (http.Error "Invalid JSON body" http.StatusBadRequest), h)
     /\ snd (snd (categories.HandleCreate (categories.Recorded repo) Decode r (h, []))) = []
     /\ snd (snd (categories.plain.HandleCreate (categories.Recorded repo) Decode r (h, [])))
        = [])
    /\ (forall input,
           Decode (http.RequestBody r) = Some input ->
           categories.input.Code input = EmptyString
           \/ categories.input.Name input = EmptyString ->
           categories.HandleCreate repo Decode r h
           = (Return (api.ErrorResponse http.StatusBadRequest "Missing code or name"), h)
           /\ categories.plain.HandleCreate repo Decode r h
              = (Return (http.Error "Missing code or name" http.StatusBadRequest), h)
           /\ snd (snd (categories.HandleCreate (categories.Recorded repo) Decode r (h, [])))
              = []
           /\ snd (snd (categories.plain.HandleCreate (categories.Recorded repo) Decode r
                          (h, []))) = [])
    /\ (forall input err h',
           Decode (http.RequestBody r) = Some input ->
           categories.input.Code input <> EmptyString ->
           categories.input.Name input <> EmptyString ->
           categories.CreateCategory repo
             {| models.Category.ID := 0;
                models.Category.Code := categories.input.Code input;
                models.Category.Name := categories.input.Name input |} h
           = (Return (Some err), h') ->
           categories.HandleCreate repo Decode r h
           = (Return (api.ErrorResponse http.StatusInternalServerError
                                        "Failed to create category"), h')
           /\ categories.plain.HandleCreate repo Decode r h
              = (Return (http.Error "Failed to create category"
                                    http.StatusInternalServerError), h'))
    /\ (forall input h',
           Decode (http.RequestBody r) = Some input ->
           categories.input.Code input <> EmptyString ->
           categories.input.Name input <> EmptyString ->
           categories.CreateCategory repo
             {| models.Category.ID := 0;
                models.Category.Code := categories.input.Code input;
                models.Category.Name := categories.input.Name input |} h
           = (Return None, h') ->
           categories.HandleCreate repo Decode r h
           = (Return {| http.Code := http.StatusCreated;
                        http.ContentType := Some "application/json";
                        http.Body :=
                          http.JSON (JObject [("message",
                                               JString "Category created successfully")]) |},
              h')
           /\ categories.plain.HandleCreate repo Decode r h
              = (Return {| http.Code := http.StatusCreated;
                           http.ContentType := None;
                           http.Body :=
                             http.JSON (JObject [("message",
                                                  JString "Category created successfully")]) |},
                 h')).
Proof.
  intros S repo Decode r h.
  unfold categories.HandleCreate, categories.plain.HandleCreate.
  split; [| split; [| split]].
  - intros Hd. rewrite Hd. repeat split.
  - intros input Hd Hmiss. rewrite Hd, (missing_field input Hmiss). repeat split.
  - intros input err h' Hd Hc Hn Hcreate.
    rewrite Hd, (both_fields input Hc Hn), Hcreate. split; reflexivity.
  - intros input h' Hd Hc Hn Hcreate.
    rewrite Hd, (both_fields input Hc Hn), Hcreate. split; reflexivity.
Qed.

Lemma HandleCreate_outcomes_witness :
  categories.HandleCreate categories.MockCategoryRepo.provider categories.Decode_scenarios
    (httptest.NewRequestWithBody categories.body_invalid) testdata.emptyCategoryRepo
  = (Return (api.ErrorResponse 400 "Invalid JSON body"), testdata.emptyCategoryRepo)
  /\ (categories.HandleCreate categories.MockCategoryRepo.provider categories.Decode_scenarios
        (httptest.NewRequestWithBody categories.body_name_X) testdata.emptyCategoryRepo
      = (Return (api.ErrorResponse 400 "Missing code or name"), testdata.emptyCategoryRepo)
      /\ snd (snd (categories.HandleCreate
                     (categories.Recorded categories.MockCategoryRepo.provider)
                     categories.Decode_scenarios
                     (httptest.NewRequestWithBody categories.body_name_X)
                     (testdata.emptyCategoryRepo, []))) = [])
  /\ categories.HandleCreate categories.MockCategoryRepo.provider categories.Decode_scenarios
       (httptest.NewRequestWithBody categories.body_toys) testdata.failingCategoryRepo
     = (Return (api.ErrorResponse 500 "Failed to create category"),
        categories.MockCategoryRepo.mk [] (Some (errors_New "insert failed")) None
          (Some {| models.Category.ID := 0; models.Category.Code := "toys";
                   models.Category.Name := "Toys" |}))
  /\ categories.plain.HandleCreate categories.MockCategoryRepo.provider
       categories.Decode_scenarios
       (httptest.NewRequestWithBody categories.body_success) testdata.emptyCategoryRepo
     = (Return {| http.Code := 201;
                  http.ContentType := None;
                  http.Body :=
                    http.JSON (JObject [("message",
                                         JString "Category created successfully")]) |},
        categories.MockCategoryRepo.mk [] None None
          (Some {| models.Category.ID := 0; models.Category.Code := "accessories";
                   models.Category.Name := "Accessories" |})).
Proof.
  split; [| split; [| split]].
  - apply (proj1 (HandleCreate_outcomes _ categories.MockCategoryRepo.provider
                    categories.Decode_scenarios
                    (httptest.NewRequestWithBody categories.body_invalid)
                    testdata.emptyCategoryRepo)).
    vm_compute. reflexivity.
  - destruct (proj1 (proj2 (HandleCreate_outcomes _ categories.MockCategoryRepo.provider
                              categories.Decode_scenarios
                              (httptest.NewRequestWithBody categories.body_name_X)
                              testdata.emptyCategoryRepo))
                {| categories.input.Code := EmptyString; categories.input.Name := "X" |}
                ltac:(vm_compute; reflexivity) ltac:(left; reflexivity))
      as (Hresp & _ & Hlog & _).
    split; [exact Hresp | exact Hlog].
  - apply (proj1 (proj2 (proj2 (HandleCreate_outcomes _
                                  categories.MockCategoryRepo.provider
                                  categories.Decode_scenarios
                                  (httptest.NewRequestWithBody categories.body_toys)
                                  testdata.failingCategoryRepo)))
             {| categories.input.Code := "toys"; categories.input.Name := "Toys" |}
             (errors_New "insert failed")).
    + vm_compute. reflexivity.
    + intros H. discriminate H.
    + intros H. discriminate H.
    + reflexivity.
  - apply (proj2 (proj2 (proj2 (HandleCreate_outcomes _
                                  categories.MockCategoryRepo.provider
                                  categories.Decode_scenarios
                                  (httptest.NewRequestWithBody categories.body_success)
                                  testdata.emptyCategoryRepo)))
             {| categories.input.Code := "accessories";
                categories.input.Name := "Accessories" |}).
    + vm_compute. reflexivity.
    + intros H. discriminate H.
    + intros H. discriminate H.
    + reflexivity.
Defined.

(** ** Prices: decimals and their float64 images *)





(** * Further properties of the code *)

(** ** The list handler *)

Lemma Atoi_int64 (s : string) (z : Z) :
  strconv.Atoi s = Some z -> MinInt64 <= z <= MaxInt64.
Proof.
  unfold strconv.Atoi. destruct s as [| c rest]; [discriminate |].
  destruct (if Ascii.eqb c "-" then (true, rest)
            else if Ascii.eqb c "+" then (false, rest) else (false, String c rest))
    as [neg body].
  destruct body as [| c' body']; [discriminate |].
  destruct (strconv.digits (String c' body') 0) as [un |]; [| discriminate].
  destruct (in_int64 (if neg then - un else un)) eqn:Hin; [| discriminate].
  intros H. inversion H. subst z.
  unfold in_int64 in Hin. apply andb_true_iff in Hin as [H1 H2].
  apply Z.leb_le in H1, H2. split; assumption.
Qed.

Lemma normalized_offset_bounds (O : string) :
  0 <= spec.normalized_offset O <= MaxInt64.
Proof.
  unfold spec.normalized_offset.
  destruct (strconv.Atoi O) as [z |] eqn:Hz; cbn.
  - apply Atoi_int64 in Hz. unfold MaxInt64 in *. lia.
  - unfold MaxInt64. lia.
Qed.

Lemma normalized_limit_bounds (L : string) :
  1 <= spec.normalized_limit L <= 100.
Proof. unfold spec.normalized_limit, spec.clamp. lia. Qed.

Lemma HandleGet_recorded {S : Type} (repo : ProductProvider S)
    (ParseFloat : string -> option float64) (r : http.Request) (h : S) :
  snd (snd (HandleGet (Recorded repo) ParseFloat r (h, []))) =
  [CallGetFilteredProducts
     (spec.normalized_offset (http.Values_Get (http.Query r) "offset"))
     (spec.normalized_limit (http.Values_Get (http.Query r) "limit"))
     (parsed_filters ParseFloat r)].
Proof.
  rewrite HandleGet_state. cbn.
  destruct (GetFilteredProducts repo _ _ _ h); reflexivity.
Qed.

(** X1. Whatever the query string holds, the one call that [HandleGet]
    makes to the store has an offset between 0 and the largest int and a
    limit between 1 and 100. *)
Theorem HandleGet_store_arguments_in_range :
  forall (S : Type) (repo : ProductProvider S) (ParseFloat : string -> option float64)
         (r : http.Request) (h : S),
  exists (offset limit : Z) (filters : models.ProductFilters),
    snd (snd (HandleGet (Recorded repo) ParseFloat r (h, [])))
    = [CallGetFilteredProducts offset limit filters]
    /\ 0 <= offset <= MaxInt64
    /\ 1 <= limit <= 100.
Proof.
  intros S repo ParseFloat r h.
  eexists _, _, _. split; [apply HandleGet_recorded |].
  split; [apply normalized_offset_bounds | apply normalized_limit_bounds].
Qed.

(** X2. When the store answers the listing, the reply of [HandleGet]
    carries the store's total unchanged (it is not recounted from the
    page) and one entry per product returned, in the store's order, with
    that product's code, the float64 image of its price and its
    category's code and name; it is the 200 JSON reply as soon as every
    price has a finite float64 image. *)
Theorem HandleGet_reply_of_store_result :
  forall (S : Type) (repo : ProductProvider S) (ParseFloat : string -> option float64)
         (r : http.Request) (h h' : S) (res : list models.Product.t) (total : Z),
    GetFilteredProducts repo
      (spec.normalized_offset (http.Values_Get (http.Query r) "offset"))
      (spec.normalized_limit (http.Values_Get (http.Query r) "limit"))
      (parsed_filters ParseFloat r) h = (Return (res, total, None), h') ->
    exists resp : Response.t,
      HandleGet repo ParseFloat r h = (Return (encode_or_error (Response.to_json resp)), h')
      /\ Response.Total resp = total
      /\ length (Response.Products resp) = length res
      /\ (forall (i : nat) (p : models.Product.t),
             res !! i = Some p ->
             Response.Products resp !! i
             = Some {| Product.Code := models.Product.Code p;
                       Product.Price := decimal.InexactFloat64 (models.Product.Price p);
                       Product.Category :=
                         {| Category.Code :=
                              models.Category.Code (models.Product.Category p);
                            Category.Name :=
                              models.Category.Name (models.Product.Category p) |} |})
      /\ (Forall (fun p => float64_is_finite
                             (decimal.InexactFloat64 (models.Product.Price p)) = true) res ->
          encode_or_error (Response.to_json resp)
          = {| http.Code := http.StatusOK;
               http.ContentType := Some "application/json";
               http.Body := http.JSON (Response.to_json resp) |}).
Proof.
  intros S repo ParseFloat r h h' res total Hcall.
  eexists. split; [rewrite HandleGet_call, Hcall; reflexivity |].
  cbn [Response.Total Response.Products].
  split; [reflexivity |]. split; [apply length_map |]. split.
  - intros i p Hp. erewrite map_lookup_Some by exact Hp. reflexivity.
  - intros Hfin. unfold encode_or_error.
    rewrite Response_encodable; [reflexivity |].
    cbn. apply Forall_map. exact Hfin.
Qed.

Lemma HandleGet_reply_of_store_result_witness :
  exists (resp : Response.t) (m' : MockProductRepo.t),
    HandleGet MockProductRepo.provider strconv.ParseFloat_plain
      (httptest.NewRequest [("offset", "1"); ("limit", "2")])
      (MockProductRepo.new testdata.allMockProducts None)
    = (Return {| http.Code := http.StatusOK;
                 http.ContentType := Some "application/json";
                 http.Body := http.JSON (Response.to_json resp) |}, m')
    /\ Response.Total resp = 4
    /\ length (Response.Products resp) = 2%nat
    /\ Product.Code <$> (Response.Products resp !! 0%nat) = Some "PROD002".
Proof.
  destruct (HandleGet_reply_of_store_result _ MockProductRepo.provider
              strconv.ParseFloat_plain
              (httptest.NewRequest [("offset", "1"); ("limit", "2")])
              (MockProductRepo.new testdata.allMockProducts None)
              (snd (MockProductRepo.GetFilteredProducts 1 2 testdata.no_filters
                      (MockProductRepo.new testdata.allMockProducts None)))
              [testdata.PROD002; testdata.PROD003] 4
              ltac:(vm_compute; reflexivity))
    as (resp & Hrun & Htotal & Hlen & Hnth & Hok).
  exists resp. eexists.
  rewrite <- (Hok ltac:(repeat constructor)).
  split; [exact Hrun |]. split; [exact Htotal |]. split; [exact Hlen |].
  rewrite (Hnth 0%nat testdata.PROD002 eq_refl). reflexivity.
Defined.

(** X3. Over the repository, on a store that reports no failure, the
    reply of [HandleGet] gives as total the number of rows that satisfy
    the filters of the request and lists at most 100 products, never more
    than the limit of the request nor than the total: as many as remain
    from the offset, up to the limit. *)
Theorem HandleGet_repository_reply_bounded :
  forall (sql_price_lt : decimal.Decimal -> float64 -> bool)
         (ParseFloat : string -> option float64) (r : http.Request)
         (rows : list models.Product.t),
  exists resp : Response.t,
    fst (HandleGet (ProductsRepository sql_price_lt) ParseFloat r
           {| models.gorm.products := rows; models.gorm.faults := [] |})
    = Return (encode_or_error (Response.to_json resp))
    /\ Response.Total resp
       = Z.of_nat (length (List.filter
                             (spec.satisfies sql_price_lt (parsed_filters ParseFloat r))
                             rows))
    /\ Z.of_nat (length (Response.Products resp))
       <= spec.normalized_limit (http.Values_Get (http.Query r) "limit")
    /\ Z.of_nat (length (Response.Products resp)) <= 100
    /\ Z.of_nat (length (Response.Products resp)) <= Response.Total resp
    /\ Z.of_nat (length (Response.Products resp))
       = Z.min (spec.normalized_limit (http.Values_Get (http.Query r) "limit"))
               (Z.max 0 (Response.Total resp
                         - spec.normalized_offset (http.Values_Get (http.Query r) "offset"))).
Proof.
  intros sql_price_lt ParseFloat r rows.
  pose proof (normalized_offset_bounds (http.Values_Get (http.Query r) "offset")) as Ho.
  pose proof (normalized_limit_bounds (http.Values_Get (http.Query r) "limit")) as Hl.
  destruct (GetFilteredProducts_no_fault sql_price_lt
              (spec.normalized_offset (http.Values_Get (http.Query r) "offset"))
              (spec.normalized_limit (http.Values_Get (http.Query r) "limit"))
              (parsed_filters ParseFloat r) rows) as (page & total & Hrepo).
  eexists. rewrite HandleGet_call. cbn [GetFilteredProducts ProductsRepository].
  rewrite Hrepo. cbn [fst]. split; [reflexivity |].
  cbn [Response.Total Response.Products]. rewrite length_map.
  apply GetFilteredProducts_returns in Hrepo. cbv zeta in Hrepo.
  cbn [models.gorm.products] in Hrepo. destruct Hrepo as (Htotal & Hpage & _).
  rewrite paginate_firstn_skipn in Hpage by lia.
  split; [exact Htotal |].
  assert (Hlen : Z.of_nat (length page)
                 = Z.min (spec.normalized_limit (http.Values_Get (http.Query r) "limit"))
                         (Z.max 0 (total - spec.normalized_offset
                                             (http.Values_Get (http.Query r) "offset")))).
  { subst page total. rewrite length_take, length_drop. lia. }
  lia.
Qed.

(** X4. While the offset and the limit of a request add up to an int, the
    in-memory provider of the tests and the repository (on the same rows,
    with a store that reports no failure and compares as the provider
    does) make [HandleGet] give the same reply. *)
Theorem HandleGet_mock_agrees_with_repository :
  forall (ParseFloat : string -> option float64) (r : http.Request)
         (ps : list models.Product.t),
    spec.normalized_offset (http.Values_Get (http.Query r) "offset")
    + spec.normalized_limit (http.Values_Get (http.Query r) "limit") <= MaxInt64 ->
    fst (HandleGet MockProductRepo.provider ParseFloat r (MockProductRepo.new ps None))
    = fst (HandleGet (ProductsRepository mock_price_lt) ParseFloat r
             {| models.gorm.products := ps; models.gorm.faults := [] |}).
Proof.
  intros ParseFloat r ps Hsum.
  pose proof (normalized_offset_bounds (http.Values_Get (http.Query r) "offset")) as Ho.
  pose proof (normalized_limit_bounds (http.Values_Get (http.Query r) "limit")) as Hl.
  pose proof (MockProductRepo_GetFilteredProducts_refines
                (spec.normalized_offset (http.Values_Get (http.Query r) "offset"))
                (spec.normalized_limit (http.Values_Get (http.Query r) "limit"))
                (parsed_filters ParseFloat r) ps ltac:(lia) ltac:(lia) Hsum) as Href.
  rewrite !HandleGet_call. cbn [GetFilteredProducts ProductsRepository MockProductRepo.provider].
  destruct (MockProductRepo.GetFilteredProducts _ _ _ (MockProductRepo.new ps None))
    as [mres m'].
  destruct (models.ProductsRepository.GetFilteredProducts mock_price_lt _ _ _ _)
    as [[[page total] err] db'].
  cbn [fst] in Href. subst mres.
  destruct err; reflexivity.
Qed.

Lemma HandleGet_mock_agrees_with_repository_witness :
  fst (HandleGet MockProductRepo.provider strconv.ParseFloat_plain
         (httptest.NewRequest [("category", "clothing"); ("limit", "1")])
         (MockProductRepo.new testdata.allMockProducts None))
  = fst (HandleGet (ProductsRepository mock_price_lt) strconv.ParseFloat_plain
           (httptest.NewRequest [("category", "clothing"); ("limit", "1")])
           testdata.allProductsDB).
Proof.
  apply (HandleGet_mock_agrees_with_repository strconv.ParseFloat_plain
           (httptest.NewRequest [("category", "clothing"); ("limit", "1")])
           testdata.allMockProducts).
  vm_compute. intros H. discriminate H.
Defined.

(** ** The listing of the repository and of the in-memory provider *)












(** X7. When the store fails, the repository's listing returns the store's
    error with no products and total 0, also when the count had succeeded
    and the page query failed; a failed count ends the listing before the
    page query is sent; the table is not changed. *)
Theorem GetFilteredProducts_store_failure :
  forall (sql_price_lt : decimal.Decimal -> float64 -> bool) (offset limit : Z)
         (filters : models.ProductFilters),
    (forall rows e rest,
        models.ProductsRepository.GetFilteredProducts sql_price_lt offset limit filters
          {| models.gorm.products := rows; models.gorm.faults := Some e :: rest |}
        = (([], 0, Some e), {| models.gorm.products := rows; models.gorm.faults := rest |}))
    /\ (forall rows e rest,
           models.ProductsRepository.GetFilteredProducts sql_price_lt offset limit filters
             {| models.gorm.products := rows; models.gorm.faults := None :: Some e :: rest |}
           = (([], 0, Some e),
              {| models.gorm.products := rows; models.gorm.faults := rest |}))
    /\ (forall db db' page total err,
           models.ProductsRepository.GetFilteredProducts sql_price_lt offset limit filters db
           = ((page, total, Some err), db') ->
           page = [] /\ total = 0
           /\ models.gorm.products db' = models.gorm.products db
           /\ (exists rest, models.gorm.faults db = Some err :: rest
                            \/ models.gorm.faults db = None :: Some err :: rest)).
Proof.
  intros sql_price_lt offset limit filters.
  split; [| split].
  - intros rows e rest. reflexivity.
  - intros rows e rest. reflexivity.
  - intros [rows fs] db' page total err Hrun.
    unfold models.ProductsRepository.GetFilteredProducts, models.gorm.Count,
      models.gorm.Find, models.gorm.exec in Hrun. cbn in Hrun.
    destruct fs as [| [e |] [| [e' |] rest]]; cbn in Hrun; inversion Hrun; subst;
      repeat split; eauto.
Qed.

Lemma GetFilteredProducts_store_failure_witness :
  models.ProductsRepository.GetFilteredProducts mock_price_lt 0 10 testdata.no_filters
    {| models.gorm.products := testdata.allMockProducts;
       models.gorm.faults := [None; Some (errors_New "db down")] |}
  = (([], 0, Some (errors_New "db down")), testdata.allProductsDB)
  /\ @nil models.Product.t = [] /\ 0 = 0
  /\ models.gorm.products testdata.allProductsDB = testdata.allMockProducts
  /\ exists rest,
      [None; Some (errors_New "db down")] = Some (errors_New "db down") :: rest
      \/ [None; Some (errors_New "db down")] = None :: Some (errors_New "db down") :: rest.
Proof.
  split.
  - apply (proj1 (proj2 (GetFilteredProducts_store_failure mock_price_lt 0 10
                           testdata.no_filters))).
  - apply (proj2 (proj2 (GetFilteredProducts_store_failure mock_price_lt 0 10
                           testdata.no_filters))
             {| models.gorm.products := testdata.allMockProducts;
                models.gorm.faults := [None; Some (errors_New "db down")] |}
             testdata.allProductsDB [] 0 (errors_New "db down")).
    reflexivity.
Defined.







(** ** Looking a product up by its code *)

Lemma find_first {A : Type} (f : A -> bool) (l : list A) (x : A) :
  List.find f l = Some x ->
  exists before after,
    l = (before ++ x :: after)%list /\ f x = true /\ forall y, In y before -> f y = false.
Proof.
  induction l as [| a l IH]; cbn; [discriminate |].
  destruct (f a) eqn:Hfa.
  - intros H. inversion H. subst a.
    exists [], l. repeat split; [exact Hfa | intros y []].
  - intros H. destruct (IH H) as (before & after & -> & Hx & Hbefore).
    exists (a :: before), after. repeat split; [exact Hx |].
    intros y [<- | Hy]; [exact Hfa | apply Hbefore; exact Hy].
Qed.

Lemma find_none_iff {A : Type} (f : A -> bool) (l : list A) :
  List.find f l = None <-> forall x, In x l -> f x = false.
Proof.
  split; [apply List.find_none | apply find_none_of].
Qed.

Lemma code_eqb_false (p : models.Product.t) (code : string) :
  String.eqb (models.Product.Code p) code = false <-> models.Product.Code p <> code.
Proof. apply String.eqb_neq. Qed.

Lemma MockProductRepo_GetByCode_result (code : string) (m : MockProductRepo.t) :
  MockProductRepo.Err m = None ->
  fst (MockProductRepo.GetByCode code m)
  = match List.find (fun p => String.eqb (models.Product.Code p) code)
                    (MockProductRepo.SourceProducts m) with
    | Some product => Return (Some product, None)
    | None => Return (None, Some ErrProductNotFound)
    end.
Proof.
  intros Herr. unfold MockProductRepo.GetByCode. cbn. rewrite Herr.
  destruct (List.find _ _); reflexivity.
Qed.

(** X10. The in-memory [GetByCode] (no error configured) returns the first
    product of [SourceProducts] whose code is the requested one, and
    [ErrProductNotFound] exactly when no product has that code; when an
    error is configured it returns that error without looking at the
    products. *)
Theorem MockProductRepo_GetByCode_first_match :
  forall (code : string) (m : MockProductRepo.t),
    (MockProductRepo.Err m = None ->
     (forall p,
         fst (MockProductRepo.GetByCode code m) = Return (Some p, None) ->
         models.Product.Code p = code
         /\ exists before after,
             MockProductRepo.SourceProducts m = (before ++ p :: after)%list
             /\ forall q, In q before -> models.Product.Code q <> code)
     /\ (fst (MockProductRepo.GetByCode code m) = Return (None, Some ErrProductNotFound)
         <-> forall p, In p (MockProductRepo.SourceProducts m) ->
                       models.Product.Code p <> code)
     /\ ((exists p, fst (MockProductRepo.GetByCode code m) = Return (Some p, None))
         \/ fst (MockProductRepo.GetByCode code m)
            = Return (None, Some ErrProductNotFound)))
    /\ (forall e, MockProductRepo.Err m = Some e ->
                  fst (MockProductRepo.GetByCode code m) = Return (None, Some e)).
Proof.
  intros code m. split.
  - intros Herr. rewrite (MockProductRepo_GetByCode_result code m Herr).
    destruct (List.find _ _) as [found |] eqn:Hfind.
    + split; [| split].
      * intros p Hp. inversion Hp. subst p.
        destruct (find_first _ _ _ Hfind) as (before & after & Hl & Hcode & Hbefore).
        split; [apply String.eqb_eq; exact Hcode |].
        exists before, after. split; [exact Hl |].
        intros q Hq. apply code_eqb_false, Hbefore, Hq.
      * split; [discriminate |].
        intros Hnone. exfalso.
        destruct (find_first _ _ _ Hfind) as (before & after & Hl & Hcode & _).
        apply (Hnone found); [rewrite Hl; apply in_elt | apply String.eqb_eq; exact Hcode].
      * left. eauto.
    + split; [| split].
      * intros p Hp. discriminate Hp.
      * split; [| reflexivity].
        intros _ p Hp. apply code_eqb_false.
        apply (proj1 (find_none_iff _ _) Hfind p Hp).
      * right. reflexivity.
  - intros e Herr. unfold MockProductRepo.GetByCode. cbn. rewrite Herr. reflexivity.
Qed.

Lemma MockProductRepo_GetByCode_first_match_witness :
  (models.Product.Code (List.hd testdata.PROD001 (List.tl testdata.detailProducts)) = "PROD100"
   /\ exists before after,
       MockProductRepo.SourceProducts (MockProductRepo.new testdata.detailProducts None)
       = (before ++ List.hd testdata.PROD001 (List.tl testdata.detailProducts) :: after)%list
       /\ forall q, In q before -> models.Product.Code q <> "PROD100")
  /\ fst (MockProductRepo.GetByCode "PROD100"
            (MockProductRepo.new testdata.detailProducts (Some (errors_New "db down"))))
     = Return (None, Some (errors_New "db down")).
Proof.
  split.
  - apply (proj1 (proj1 (MockProductRepo_GetByCode_first_match "PROD100"
                           (MockProductRepo.new testdata.detailProducts None)) eq_refl)).
    vm_compute. reflexivity.
  - apply (proj2 (MockProductRepo_GetByCode_first_match "PROD100"
                    (MockProductRepo.new testdata.detailProducts
                                         (Some (errors_New "db down"))))).
    reflexivity.
Defined.

Lemma least_ID_In (best : models.Product.t) (rows : list models.Product.t) :
  In (models.gorm.least_ID best rows) (best :: rows).
Proof.
  revert best. induction rows as [| p rows IH]; intros best; cbn; [left; reflexivity |].
  destruct (IH (if models.Product.ID p <? models.Product.ID best then p else best))
    as [Heq | Hin].
  - destruct (models.Product.ID p <? models.Product.ID best);
      [right; left; exact Heq | left; exact Heq].
  - right. right. exact Hin.
Qed.

Lemma ProductsRepository_GetByCode_cases (code : string) (db : models.gorm.DB) :
  (exists p,
      fst (models.ProductsRepository.GetByCode code db) = (Some p, None)
      /\ In p (models.gorm.products db) /\ models.Product.Code p = code)
  \/ (exists e,
         fst (models.ProductsRepository.GetByCode code db) = (None, Some e)
         /\ e <> gorm_ErrRecordNotFound
         /\ (models.gorm.faults db = [] ->
             e = ErrProductNotFound
             /\ forall p, In p (models.gorm.products db) -> models.Product.Code p <> code)).
Proof.
  destruct db as [rows fs].
  unfold models.ProductsRepository.GetByCode, models.gorm.First, models.gorm.exec,
    models.gorm.selected. cbn.
  set (sel := List.filter _ rows).
  assert (Hsel : forall p, In p sel <-> In p rows /\ models.Product.Code p = code).
  { intros p. unfold sel. rewrite filter_In. cbn. rewrite andb_true_r, String.eqb_eq.
    reflexivity. }
  assert (Hfound : forall p rest, sel = p :: rest ->
             In (models.gorm.least_ID p rest) rows
             /\ models.Product.Code (models.gorm.least_ID p rest) = code).
  { intros p rest Heq. apply Hsel. rewrite Heq. apply least_ID_In. }
  assert (Hnone : sel = [] -> forall p, In p rows -> models.Product.Code p <> code).
  { intros Heq p Hp Hcode.
    assert (Hin : In p sel) by (apply Hsel; split; assumption).
    rewrite Heq in Hin. exact Hin. }
  destruct fs as [| [e |] rest]; cbn.
  - destruct sel as [| p ps] eqn:Hs; cbn.
    + right. exists ErrProductNotFound.
      split; [reflexivity |]. split; [discriminate |].
      intros _. split; [reflexivity | apply Hnone; reflexivity].
    + left. exists (models.gorm.least_ID p ps).
      split; [reflexivity | apply (Hfound p ps eq_refl)].
  - right. destruct e as [| | text]; cbn.
    + exists ErrProductNotFound. repeat split; discriminate.
    + exists ErrProductNotFound. repeat split; discriminate.
    + exists (errors_New text). repeat split; discriminate.
  - destruct sel as [| p ps] eqn:Hs; cbn.
    + right. exists ErrProductNotFound. repeat split; discriminate.
    + left. exists (models.gorm.least_ID p ps).
      split; [reflexivity | apply (Hfound p ps eq_refl)].
Qed.

(** X11. The repository's [GetByCode] returns either a product or an
    error, never both and never neither; a product it returns is a row of
    the table with the requested code; [gorm.ErrRecordNotFound] never
    reaches the caller; and on a store that reports no failure the error
    is [ErrProductNotFound], returned exactly when no row has the code. *)
Theorem ProductsRepository_GetByCode_result :
  forall (code : string) (db : models.gorm.DB),
    (fst (fst (models.ProductsRepository.GetByCode code db)) = None
     <-> snd (fst (models.ProductsRepository.GetByCode code db)) <> None)
    /\ snd (fst (models.ProductsRepository.GetByCode code db)) <> Some gorm_ErrRecordNotFound
    /\ (forall p,
           fst (fst (models.ProductsRepository.GetByCode code db)) = Some p ->
           In p (models.gorm.products db) /\ models.Product.Code p = code)
    /\ (models.gorm.faults db = [] ->
        (snd (fst (models.ProductsRepository.GetByCode code db)) = Some ErrProductNotFound
         <-> forall p, In p (models.gorm.products db) -> models.Product.Code p <> code)
        /\ (snd (fst (models.ProductsRepository.GetByCode code db)) = None
            \/ snd (fst (models.ProductsRepository.GetByCode code db))
               = Some ErrProductNotFound)).
Proof.
  intros code db.
  destruct (ProductsRepository_GetByCode_cases code db)
    as [(p & Hres & Hrow & Hcode) | (e & Hres & Hne & Hclean)];
    rewrite Hres; cbn [fst snd].
  - split; [split; [discriminate | intros H; contradiction] |].
    split; [discriminate |].
    split; [intros q Hq; inversion Hq; subst q; split; assumption |].
    intros _. split; [| left; reflexivity].
    split; [discriminate |].
    intros Hnone. exfalso. apply (Hnone p Hrow Hcode).
  - split; [split; [discriminate | reflexivity] |].
    split; [intros H; inversion H; contradiction |].
    split; [discriminate |].
    intros Hf. destruct (Hclean Hf) as [-> Hnone].
    split; [split; [intros _; exact Hnone | reflexivity] | right; reflexivity].
Qed.

Lemma ProductsRepository_GetByCode_result_witness :
  (In (List.hd testdata.PROD001 testdata.detailProducts)
      (models.gorm.products
         {| models.gorm.products := testdata.detailProducts; models.gorm.faults := [] |})
   /\ models.Product.Code (List.hd testdata.PROD001 testdata.detailProducts) = "PROD001")
  /\ (snd (fst (models.ProductsRepository.GetByCode "NONEXISTENT"
                  {| models.gorm.products := testdata.detailProducts;
                     models.gorm.faults := [] |}))
      = Some ErrProductNotFound
      <-> forall p, In p testdata.detailProducts -> models.Product.Code p <> "NONEXISTENT").
Proof.
  split.
  - apply (proj1 (proj2 (proj2 (ProductsRepository_GetByCode_result "PROD001"
                                  {| models.gorm.products := testdata.detailProducts;
                                     models.gorm.faults := [] |})))).
    vm_compute. reflexivity.
  - apply (proj1 (proj2 (proj2 (proj2 (ProductsRepository_GetByCode_result "NONEXISTENT"
                                         {| models.gorm.products := testdata.detailProducts;
                                            models.gorm.faults := [] |}))) eq_refl)).
Defined.

Lemma encode_or_error_code (v : json) :
  http.Code (encode_or_error v) = http.StatusOK
  \/ http.Code (encode_or_error v) = http.StatusInternalServerError.
Proof.
  unfold encode_or_error. destruct (json_Encode v); [right | left]; reflexivity.
Qed.

Lemma encode_or_error_not_404 (v : json) :
  encode_or_error v <> http.Error "Product not found" http.StatusNotFound.
Proof.
  intros Heq.
  assert (Hcode : http.Code (encode_or_error v) = http.StatusNotFound)
    by (rewrite Heq; reflexivity).
  destruct (encode_or_error_code v) as [H | H]; rewrite H in Hcode; discriminate Hcode.
Qed.

(** X12. Over the in-memory provider (no error configured) and over the
    repository (a store that reports no failure), the detail handler
    replies 404 "Product not found" exactly when no product has the code
    of the path; otherwise it replies for a product that has that code:
    the [code] of the reply is the code of the path. *)
Theorem HandleGetProduct_not_found_iff :
  forall (r : http.Request) (ps : list models.Product.t),
    (fst (HandleGetProduct MockProductRepo.provider r (MockProductRepo.new ps None))
     = Return (http.Error "Product not found" http.StatusNotFound)
     <-> forall p, In p ps -> models.Product.Code p <> http.PathValue r "code")
    /\ (forall sql_price_lt,
           fst (HandleGetProduct (ProductsRepository sql_price_lt) r
                  {| models.gorm.products := ps; models.gorm.faults := [] |})
           = Return (http.Error "Product not found" http.StatusNotFound)
           <-> forall p, In p ps -> models.Product.Code p <> http.PathValue r "code")
    /\ ((exists p, In p ps /\ models.Product.Code p = http.PathValue r "code") ->
        (exists detail,
            fst (HandleGetProduct MockProductRepo.provider r (MockProductRepo.new ps None))
            = Return (encode_or_error (ProductDetail.to_json detail))
            /\ ProductDetail.Code detail = http.PathValue r "code")
        /\ (forall sql_price_lt,
               exists detail,
                 fst (HandleGetProduct (ProductsRepository sql_price_lt) r
                        {| models.gorm.products := ps; models.gorm.faults := [] |})
                 = Return (encode_or_error (ProductDetail.to_json detail))
                 /\ ProductDetail.Code detail = http.PathValue r "code")).
Proof.
  intros r ps.
  set (code := http.PathValue r "code").
  (* the in-memory provider *)
  assert (Hmock :
    (exists p, In p ps /\ models.Product.Code p = code
               /\ fst (HandleGetProduct MockProductRepo.provider r (MockProductRepo.new ps None))
                  = Return (encode_or_error
                              (ProductDetail.to_json
                                 {| ProductDetail.Code := models.Product.Code p;
                                    ProductDetail.Price :=
                                      decimal.InexactFloat64 (models.Product.Price p);
                                    ProductDetail.Category :=
                                      {| Category.Code :=
                                           models.Category.Code (models.Product.Category p);
                                         Category.Name :=
                                           models.Category.Name (models.Product.Category p) |};
                                    ProductDetail.Variants :=
                                      List.map
                                        (fun v =>
                                           {| Variant.Name := models.Variant.Name v;
                                              Variant.SKU := models.Variant.SKU v;
                                              Variant.Price :=
                                                decimal.InexactFloat64
                                                  (if decimal.IsZero (models.Variant.Price v)
                                                   then models.Product.Price p
                                                   else models.Variant.Price v) |})
                                        (models.Product.Variants p) |})))
    \/ ((forall p, In p ps -> models.Product.Code p <> code)
        /\ fst (HandleGetProduct MockProductRepo.provider r (MockProductRepo.new ps None))
           = Return (http.Error "Product not found" http.StatusNotFound))).
  { destruct (List.find (fun p => String.eqb (models.Product.Code p) code) ps)
      as [p |] eqn:Hfind.
    - left. exists p.
      destruct (find_first _ _ _ Hfind) as (before & after & Hl & Hcode & _).
      split; [rewrite Hl; apply in_elt |].
      split; [apply String.eqb_eq; exact Hcode |].
      erewrite HandleGetProduct_found; [reflexivity |].
      cbn. unfold MockProductRepo.GetByCode. cbn. fold code. rewrite Hfind. reflexivity.
    - right.
      assert (Hnone : forall p, In p ps -> models.Product.Code p <> code).
      { intros p Hp. apply code_eqb_false. apply (proj1 (find_none_iff _ _) Hfind p Hp). }
      split; [exact Hnone |].
      erewrite HandleGetProduct_error; [reflexivity |].
      cbn. unfold MockProductRepo.GetByCode. cbn. fold code. rewrite Hfind. reflexivity. }
  (* the repository *)
  assert (Hrepo : forall sql_price_lt,
    (exists p, In p ps /\ models.Product.Code p = code
               /\ exists detail,
                   fst (HandleGetProduct (ProductsRepository sql_price_lt) r
                          {| models.gorm.products := ps; models.gorm.faults := [] |})
                   = Return (encode_or_error (ProductDetail.to_json detail))
                   /\ ProductDetail.Code detail = code)
    \/ ((forall p, In p ps -> models.Product.Code p <> code)
        /\ fst (HandleGetProduct (ProductsRepository sql_price_lt) r
                  {| models.gorm.products := ps; models.gorm.faults := [] |})
           = Return (http.Error "Product not found" http.StatusNotFound))).
  { intros sql_price_lt.
    destruct (ProductsRepository_GetByCode_cases code
                {| models.gorm.products := ps; models.gorm.faults := [] |})
      as [(p & Hres & Hrow & Hcode) | (e & Hres & _ & Hclean)].
    - left. exists p. split; [exact Hrow |]. split; [exact Hcode |].
      destruct (models.ProductsRepository.GetByCode code _) as [res db'] eqn:Hg.
      cbn [fst] in Hres. subst res.
      eexists. split.
      + rewrite (HandleGetProduct_found (ProductsRepository sql_price_lt) r _ db' p);
          [reflexivity |].
        cbn [GetByCode ProductsRepository]. fold code. rewrite Hg. reflexivity.
      + exact Hcode.
    - right. destruct (Hclean eq_refl) as [-> Hnone].
      split; [exact Hnone |].
      destruct (models.ProductsRepository.GetByCode code _) as [res db'] eqn:Hg.
      cbn [fst] in Hres. subst res.
      rewrite (HandleGetProduct_error (ProductsRepository sql_price_lt) r _ db' None
                 ErrProductNotFound); [reflexivity |].
      cbn [GetByCode ProductsRepository]. fold code. rewrite Hg. reflexivity. }
  split; [| split].
  - destruct Hmock as [(p & Hrow & Hcode & Hrun) | (Hnone & Hrun)]; rewrite Hrun.
    + split.
      * intros H. inversion H as [Heq]. exfalso.
        apply (encode_or_error_not_404 _ Heq).
      * intros Hnone. exfalso. apply (Hnone p Hrow Hcode).
    + split; [intros _; exact Hnone | reflexivity].
  - intros sql_price_lt.
    destruct (Hrepo sql_price_lt)
      as [(p & Hrow & Hcode & detail & Hrun & _) | (Hnone & Hrun)]; rewrite Hrun.
    + split.
      * intros H. inversion H as [Heq]. exfalso.
        apply (encode_or_error_not_404 _ Heq).
      * intros Hnone. exfalso. apply (Hnone p Hrow Hcode).
    + split; [intros _; exact Hnone | reflexivity].
  - intros (q & Hq & Hqcode). split.
    + destruct Hmock as [(p & Hrow & Hcode & Hrun) | (Hnone & _)].
      * eexists. split; [exact Hrun | exact Hcode].
      * exfalso. apply (Hnone q Hq Hqcode).
    + intros sql_price_lt.
      destruct (Hrepo sql_price_lt)
        as [(p & Hrow & Hcode & detail & Hrun & Hdetail) | (Hnone & _)].
      * exists detail. split; [exact Hrun | exact Hdetail].
      * exfalso. apply (Hnone q Hq Hqcode).
Qed.

Lemma HandleGetProduct_not_found_iff_witness :
  exists detail,
    fst (HandleGetProduct MockProductRepo.provider
           (httptest.SetPathValue "code" "PROD100" (httptest.NewRequest []))
           (MockProductRepo.new testdata.detailProducts None))
    = Return (encode_or_error (ProductDetail.to_json detail))
    /\ ProductDetail.Code detail
       = http.PathValue (httptest.SetPathValue "code" "PROD100" (httptest.NewRequest []))
                        "code".
Proof.
  apply (proj2 (proj2 (HandleGetProduct_not_found_iff
                         (httptest.SetPathValue "code" "PROD100" (httptest.NewRequest []))
                         testdata.detailProducts))).
  exists (List.hd testdata.PROD001 (List.tl testdata.detailProducts)).
  split; [right; left; reflexivity | vm_compute; reflexivity].
Defined.

(** ** The category handlers *)

Lemma categories_encodable (cs : list categories.CategoryResponse.t) :
  json_Encode (JArray (List.map categories.CategoryResponse.to_json cs)) = None.
Proof.
  unfold json_Encode. cbn.
  induction cs as [| c cs IH]; cbn; [reflexivity | exact IH].
Qed.

(** X13. [HandleGetAll], in the variant that replies with [http.Error]:
    when the store fails the reply is 500 with the fixed text "failed to
    fetch categories", whatever the store's error; when it succeeds the
    reply is always the 200 JSON array (its encoding cannot fail) with one
    [{code, name}] object per category, in the store's order, the ID left
    out; the handler makes no other call. *)
Theorem plain_HandleGetAll_reply :
  forall (S : Type) (repo : categories.CategoryProvider S) (r : http.Request) (h : S),
    (forall cs err h',
        categories.GetAllCategories repo h = (Return (cs, Some err), h') ->
        categories.plain.HandleGetAll repo r h
        = (Return (http.Error "failed to fetch categories"
                              http.StatusInternalServerError), h'))
    /\ (forall cs h',
           categories.GetAllCategories repo h = (Return (cs, None), h') ->
           categories.plain.HandleGetAll repo r h
           = (Return {| http.Code := http.StatusOK;
                        http.ContentType := Some "application/json";
                        http.Body :=
                          http.JSON
                            (JArray
                               (List.map
                                  (fun c =>
                                     JObject [("code", JString (models.Category.Code c));
                                              ("name", JString (models.Category.Name c))])
                                  cs)) |}, h'))
    /\ snd (snd (categories.plain.HandleGetAll (categories.Recorded repo) r (h, [])))
       = [categories.CallGetAllCategories].
Proof.
  intros S repo r h. unfold categories.plain.HandleGetAll. split; [| split].
  - intros cs err h' Hcall. rewrite Hcall. reflexivity.
  - intros cs h' Hcall. rewrite Hcall. unfold encode_or_error.
    rewrite categories_encodable. rewrite List.map_map. reflexivity.
  - cbn. destruct (categories.GetAllCategories repo h)
      as [[[cs [err |]] | p] h']; reflexivity.
Qed.

Lemma plain_HandleGetAll_reply_witness :
  categories.plain.HandleGetAll categories.MockCategoryRepo.provider (httptest.NewRequest [])
    (categories.MockCategoryRepo.mk [] None (Some (errors_New "db down")) None)
  = (Return (http.Error "failed to fetch categories" http.StatusInternalServerError),
     categories.MockCategoryRepo.mk [] None (Some (errors_New "db down")) None)
  /\ categories.plain.HandleGetAll categories.MockCategoryRepo.provider
       (httptest.NewRequest [])
       (categories.MockCategoryRepo.mk testdata.twoCategories None None None)
     = (Return {| http.Code := http.StatusOK;
                  http.ContentType := Some "application/json";
                  http.Body :=
                    http.JSON
                      (JArray
                         (List.map
                            (fun c =>
                               JObject [("code", JString (models.Category.Code c));
                                        ("name", JString (models.Category.Name c))])
                            testdata.twoCategories)) |},
        categories.MockCategoryRepo.mk testdata.twoCategories None None None).
Proof.
  split.
  - apply (proj1 (plain_HandleGetAll_reply _ categories.MockCategoryRepo.provider
                    (httptest.NewRequest [])
                    (categories.MockCategoryRepo.mk [] None (Some (errors_New "db down"))
                                                    None))
             [] (errors_New "db down")).
    reflexivity.
  - apply (proj1 (proj2 (plain_HandleGetAll_reply _ categories.MockCategoryRepo.provider
                           (httptest.NewRequest [])
                           (categories.MockCategoryRepo.mk testdata.twoCategories None None
                                                           None)))).
    reflexivity.
Defined.

(** X14. [HandleGetAll] of app/categories/handler.go: a store error gives
    the error reply 500 "failed to fetch categories", the same for every
    error of the store; a success gives the OK reply with one
    [{code, name}] object per category, in the store's order; the handler
    makes one call to the store. *)
Theorem HandleGetAll_reply :
  forall (S : Type) (repo : categories.CategoryProvider S) (r : http.Request) (h : S),
    (forall cs err h',
        categories.GetAllCategories repo h = (Return (cs, Some err), h') ->
        categories.HandleGetAll repo r h
        = (Return (api.ErrorResponse http.StatusInternalServerError
                                     "failed to fetch categories"), h'))
    /\ (forall cs h',
           categories.GetAllCategories repo h = (Return (cs, None), h') ->
           categories.HandleGetAll repo r h
           = (Return (api.OKResponse
                        (JArray
                           (List.map
                              (fun c =>
                                 JObject [("code", JString (models.Category.Code c));
                                          ("name", JString (models.Category.Name c))])
                              cs))), h'))
    /\ snd (snd (categories.HandleGetAll (categories.Recorded repo) r (h, [])))
       = [categories.CallGetAllCategories].
Proof.
  intros S repo r h. unfold categories.HandleGetAll. split; [| split].
  - intros cs err h' Hcall. rewrite Hcall. reflexivity.
  - intros cs h' Hcall. rewrite Hcall. rewrite List.map_map. reflexivity.
  - cbn. destruct (categories.GetAllCategories repo h)
      as [[[cs [err |]] | p] h']; reflexivity.
Qed.

Lemma HandleGetAll_reply_witness :
  categories.HandleGetAll categories.MockCategoryRepo.provider (httptest.NewRequest [])
    (categories.MockCategoryRepo.mk [] None (Some (errors_New "db down")) None)
  = (Return (api.ErrorResponse http.StatusInternalServerError "failed to fetch categories"),
     categories.MockCategoryRepo.mk [] None (Some (errors_New "db down")) None)
  /\ categories.HandleGetAll categories.MockCategoryRepo.provider (httptest.NewRequest [])
       (categories.MockCategoryRepo.mk testdata.twoCategories None None None)
     = (Return (api.OKResponse
                  (JArray
                     (List.map
                        (fun c =>
                           JObject [("code", JString (models.Category.Code c));
                                    ("name", JString (models.Category.Name c))])
                        testdata.twoCategories))),
        categories.MockCategoryRepo.mk testdata.twoCategories None None None).
Proof.
  split.
  - apply (proj1 (HandleGetAll_reply _ categories.MockCategoryRepo.provider
                    (httptest.NewRequest [])
                    (categories.MockCategoryRepo.mk [] None (Some (errors_New "db down"))
                                                    None))
             [] (errors_New "db down")).
    reflexivity.
  - apply (proj1 (proj2 (HandleGetAll_reply _ categories.MockCategoryRepo.provider
                           (httptest.NewRequest [])
                           (categories.MockCategoryRepo.mk testdata.twoCategories None None
                                                           None)))).
    reflexivity.
Defined.

(** X15. For a body that decodes to a non-empty code and name,
    [HandleCreate] (in both variants) makes exactly one call to the store,
    [CreateCategory] of the category with that code and name and a zero
    ID, whether the store then succeeds or fails; the in-memory provider
    keeps that category as [LastSaved]. *)
Theorem HandleCreate_single_create_call :
  forall (S : Type) (repo : categories.CategoryProvider S)
         (Decode : string -> option categories.input.t) (r : http.Request) (h : S)
         (input : categories.input.t),
    Decode (http.RequestBody r) = Some input ->
    categories.input.Code input <> EmptyString ->
    categories.input.Name input <> EmptyString ->
    snd (snd (categories.HandleCreate (categories.Recorded repo) Decode r (h, [])))
    = [categories.CallCreateCategory
         {| models.Category.ID := 0;
            models.Category.Code := categories.input.Code input;
            models.Category.Name := categories.input.Name input |}]
    /\ snd (snd (categories.plain.HandleCreate (categories.Recorded repo) Decode r (h, [])))
       = [categories.CallCreateCategory
            {| models.Category.ID := 0;
               models.Category.Code := categories.input.Code input;
               models.Category.Name := categories.input.Name input |}]
    /\ (forall m : categories.MockCategoryRepo.t,
           categories.MockCategoryRepo.LastSaved
             (snd (categories.HandleCreate categories.MockCategoryRepo.provider Decode r m))
           = Some {| models.Category.ID := 0;
                     models.Category.Code := categories.input.Code input;
                     models.Category.Name := categories.input.Name input |}).
Proof.
  intros S repo Decode r h input Hd Hc Hn.
  unfold categories.HandleCreate, categories.plain.HandleCreate.
  rewrite Hd, (both_fields input Hc Hn).
  split; [| split].
  - cbn. destruct (categories.CreateCategory repo _ h) as [[[err |] | p] h']; reflexivity.
  - cbn. destruct (categories.CreateCategory repo _ h) as [[[err |] | p] h']; reflexivity.
  - intros m. cbn. destruct (categories.MockCategoryRepo.CreateErr m); reflexivity.
Qed.

Lemma HandleCreate_single_create_call_witness :
  snd (snd (categories.HandleCreate
              (categories.Recorded categories.MockCategoryRepo.provider)
              categories.Decode_scenarios
              (httptest.NewRequestWithBody categories.body_toys)
              (testdata.failingCategoryRepo, [])))
  = [categories.CallCreateCategory
       {| models.Category.ID := 0; models.Category.Code := "toys";
          models.Category.Name := "Toys" |}].
Proof.
  apply (proj1 (HandleCreate_single_create_call _ categories.MockCategoryRepo.provider
                  categories.Decode_scenarios
                  (httptest.NewRequestWithBody categories.body_toys)
                  testdata.failingCategoryRepo
                  {| categories.input.Code := "toys"; categories.input.Name := "Toys" |}
                  ltac:(vm_compute; reflexivity)
                  ltac:(intros H; discriminate H)
                  ltac:(intros H; discriminate H))).
Defined.

(** ** What the listing leaves alone *)

(** X16. The total of the repository's listing does not depend on the
    offset and the limit: on the same table and filters (and a store that
    reports no failure) every page comes with the same total, the number
    of rows that satisfy the filters; likewise two results of the
    in-memory provider carry the same total. *)
Theorem GetFilteredProducts_total_independent_of_page :
  (forall (sql_price_lt : decimal.Decimal -> float64 -> bool)
          (filters : models.ProductFilters) (rows : list models.Product.t)
          (offset1 limit1 offset2 limit2 : Z),
      snd (fst (fst (models.ProductsRepository.GetFilteredProducts sql_price_lt
                       offset1 limit1 filters
                       {| models.gorm.products := rows; models.gorm.faults := [] |})))
      = snd (fst (fst (models.ProductsRepository.GetFilteredProducts sql_price_lt
                         offset2 limit2 filters
                         {| models.gorm.products := rows; models.gorm.faults := [] |}))))
  /\ (forall (filters : models.ProductFilters) (m : MockProductRepo.t)
             (offset1 limit1 offset2 limit2 : Z) page1 total1 err1 page2 total2 err2,
         fst (MockProductRepo.GetFilteredProducts offset1 limit1 filters m)
         = Return (page1, total1, err1) ->
         fst (MockProductRepo.GetFilteredProducts offset2 limit2 filters m)
         = Return (page2, total2, err2) ->
         total1 = total2).
Proof.
  split.
  - intros sql_price_lt filters rows offset1 limit1 offset2 limit2.
    destruct (GetFilteredProducts_no_fault sql_price_lt offset1 limit1 filters rows)
      as (page1 & total1 & H1).
    destruct (GetFilteredProducts_no_fault sql_price_lt offset2 limit2 filters rows)
      as (page2 & total2 & H2).
    rewrite H1, H2. cbn [fst snd].
    apply GetFilteredProducts_returns in H1, H2. cbv zeta in H1, H2.
    destruct H1 as (-> & _), H2 as (-> & _). reflexivity.
  - intros filters m offset1 limit1 offset2 limit2 page1 total1 err1 page2 total2 err2.
    unfold MockProductRepo.GetFilteredProducts. cbn.
    destruct (MockProductRepo.Err m) as [err |]; cbn.
    + intros H1 H2. inversion H1. inversion H2. reflexivity.
    + do 2 match goal with
           | |- context [slice ?l ?a ?b] => destruct (slice l a b)
           end; cbn; intros H1 H2; inversion H1; inversion H2; reflexivity.
Qed.

Lemma GetFilteredProducts_total_independent_of_page_witness :
  4 = 4.
Proof.
  apply (proj2 GetFilteredProducts_total_independent_of_page testdata.no_filters
           (MockProductRepo.new testdata.allMockProducts None) 0 1 3 10
           [testdata.PROD001] 4 None [testdata.PROD004] 4 None);
    vm_compute; reflexivity.
Defined.

(** X17. The list handler only reads: after [HandleGet] the in-memory
    provider has the same products and the same configured error (only its
    record of the last call changes), and the repository's table is the
    same. *)
Theorem HandleGet_reads_only :
  (forall (ParseFloat : string -> option float64) (r : http.Request)
          (m : MockProductRepo.t),
      MockProductRepo.SourceProducts (snd (HandleGet MockProductRepo.provider ParseFloat r m))
      = MockProductRepo.SourceProducts m
      /\ MockProductRepo.Err (snd (HandleGet MockProductRepo.provider ParseFloat r m))
         = MockProductRepo.Err m
      /\ MockProductRepo.lastCalledCode
           (snd (HandleGet MockProductRepo.provider ParseFloat r m))
         = MockProductRepo.lastCalledCode m)
  /\ (forall (sql_price_lt : decimal.Decimal -> float64 -> bool)
             (ParseFloat : string -> option float64) (r : http.Request)
             (db : models.gorm.DB),
         models.gorm.products
           (snd (HandleGet (ProductsRepository sql_price_lt) ParseFloat r db))
         = models.gorm.products db).
Proof.
  split.
  - intros ParseFloat r m. rewrite HandleGet_state. cbn.
    unfold MockProductRepo.GetFilteredProducts. cbn.
    destruct (MockProductRepo.Err m); cbn; [repeat split |].
    match goal with
    | |- context [slice ?l ?a ?b] => destruct (slice l a b)
    end; cbn; repeat split.
  - intros sql_price_lt ParseFloat r [rows fs]. rewrite HandleGet_state. cbn.
    unfold models.ProductsRepository.GetFilteredProducts, models.gorm.Count,
      models.gorm.Find, models.gorm.exec. cbn.
    destruct fs as [| [e |] [| [e' |] rest]]; reflexivity.
Qed.
